(** * The OCR.space client of [python_ocr_integration/ocr_space_api.py]

    A shallow embedding of the client class [OCRSpaceAPI] and of the free
    function [image_to_base64], and the properties of its argument
    validation, response validation and response views.

    Python values are the values a decoded JSON document can hold; a [str]
    is a Rocq [string] whose characters stand for the code points 0..255;
    exceptions are results of a small error monad; the file system, the
    remote service and the logger are fields of an explicit [world]. *)

From Stdlib Require Import Floats Uint63 ZArith Ascii String List Lia.
From Stdlib.Strings Require Import Byte.
From stdpp Require Import gmap strings list fin_maps pretty sorting.

Set Warnings "-register-all".

(** ** Python values *)

(** What [response.json()] can return: [None], booleans, integers, floats,
    strings, lists, and dictionaries with string keys. *)
Inductive pyval :=
| PNone
| PBool (b : bool)
| PInt (z : Z)
| PFloat (f : float)
| PStr (s : string)
| PList (l : list pyval)
| PDict (d : gmap string pyval).

(** The pieces of an f-string: literal text, an interpolated value
    [{v}], an interpolated [pathlib.Path] built from a string. *)
Inductive piece :=
| Lit (s : string)
| Fmt (v : pyval)
| FmtPath (p : string).

Definition fstring := list piece.

(** The exception classes the module raises or lets through.
    [RequestException] stands for [requests.RequestException] and its
    subclasses, [OSError] for the errors of [open]. *)
Inductive pyexn :=
| ValueError (msg : fstring)
| FileNotFoundError (msg : fstring)
| RequestException
| OSError
| AttributeError
| TypeError
| Exception_ (msg : fstring).

(** ** The error monad of code that only computes *)

Inductive result (A : Type) :=
| Return (a : A)
| Raise (e : pyexn).
Arguments Return {A} a.
Arguments Raise {A} e.

Definition rbind {A B} (m : result A) (k : A → result B) : result B :=
  match m with
  | Return a => k a
  | Raise e => Raise e
  end.

Notation "'let!' x ':=' m 'in' k" := (rbind m (λ x, k))
  (at level 10, x name, m at level 100, k at level 200).

(** ** Operations of Python values *)

(** Truth value of an object, as [if v:] and [not v] take it. *)
Definition py_truthy (v : pyval) : bool :=
  match v with
  | PNone => false
  | PBool b => b
  | PInt z => negb (z =? 0)%Z
  | PFloat f => negb (PrimFloat.eqb f 0%float)
  | PStr s => negb (String.eqb s "")
  | PList l => match l with [] => false | _ => true end
  | PDict d => negb (bool_decide (d = ∅))
  end.

(** [v == n] for an integer literal [n] (used at 0 <= n < 2^53): booleans
    compare as 0 and 1, floats by value, every other type is unequal. *)
Definition py_eq_int (v : pyval) (n : Z) : bool :=
  match v with
  | PBool b => ((if b then 1 else 0) =? n)%Z
  | PInt z => (z =? n)%Z
  | PFloat f => PrimFloat.eqb f (PrimFloat.of_uint63 (Uint63.of_Z n))
  | _ => false
  end.

(** [v.get(key, dflt)]: only dictionaries have the method. *)
Definition py_get (v : pyval) (key : string) (dflt : pyval) : result pyval :=
  match v with
  | PDict d => Return (default dflt (d !! key))
  | _ => Raise AttributeError
  end.

(** The items a [for] loop draws from [v]. A string yields its characters
    and a dictionary its keys (here in the order of [map_to_list]; every
    loop of this module calls [.get] on the item, which a string lacks, so
    the order of keys is never observed). *)
Definition py_iter (v : pyval) : result (list pyval) :=
  match v with
  | PList l => Return l
  | PStr s => Return ((λ c, PStr (String c "")) <$> list_ascii_of_string s)
  | PDict d => Return ((λ kv, PStr kv.1) <$> map_to_list d)
  | _ => Raise TypeError
  end.

(** ** Strings *)

(** [str.isspace] on the code points below 256. *)
Definition is_py_space (c : ascii) : bool :=
  let n := N_of_ascii c in
  ((9 <=? n) && (n <=? 13) || (28 <=? n) && (n <=? 32) || (n =? 133) || (n =? 160))%N.

Fixpoint lstrip_chars (l : list ascii) : list ascii :=
  match l with
  | [] => []
  | c :: l' => if is_py_space c then lstrip_chars l' else l
  end.

Definition rstrip_chars (l : list ascii) : list ascii :=
  rev (lstrip_chars (rev l)).

(** [s.strip()] *)
Definition py_strip (s : string) : string :=
  string_of_list_ascii (rstrip_chars (lstrip_chars (list_ascii_of_string s))).

(** [v.strip()]: of the JSON values only a string has the method. *)
Definition py_strip_method (v : pyval) : result string :=
  match v with
  | PStr s => Return (py_strip s)
  | _ => Raise AttributeError
  end.

Definition LF : ascii := "010"%char.

(** The separator ['\n\n'] of [extract_text]. *)
Definition blank_line : string := String LF (String LF "").

(** ** [OCRSpaceAPI.extract_text] *)

(** The [for result in parsed_results] loop; [texts] is the list the loop
    appends to. *)
Fixpoint extract_text_loop (parsed_results : list pyval) (texts : list string)
  : result (list string) :=
  match parsed_results with
  | [] => Return texts
  | res :: rest =>
      let! code := py_get res "FileParseExitCode" PNone in
      if py_eq_int code 1 then
        let! raw := py_get res "ParsedText" (PStr "") in
        let! text := py_strip_method raw in
        if py_truthy (PStr text)
        then extract_text_loop rest (texts ++ [text])
        else extract_text_loop rest texts
      else extract_text_loop rest texts
  end.

Definition extract_text (response_data : gmap string pyval) : result string :=
  let! parsed_results := py_iter (default (PList []) (response_data !! "ParsedResults")) in
  let! texts := extract_text_loop parsed_results [] in
  Return (String.concat blank_line texts).

(** *** The shape of a response and the views the statements use *)

Definition as_dict (v : pyval) : option (gmap string pyval) :=
  match v with
  | PDict d => Some d
  | _ => None
  end.

(** The pages of a response: the dictionaries of its [ParsedResults] list,
    none when the field is absent. *)
Definition parsed_pages (response_data : gmap string pyval)
  : option (list (gmap string pyval)) :=
  match response_data !! "ParsedResults" with
  | None => Some []
  | Some (PList l) => mapM as_dict l
  | Some _ => None
  end.

(** A page succeeded when its [FileParseExitCode] equals 1. *)
Definition page_ok (p : gmap string pyval) : bool :=
  py_eq_int (default PNone (p !! "FileParseExitCode")) 1.

(** The [ParsedText] of a page, empty when absent. *)
Definition page_text (p : gmap string pyval) : option string :=
  match p !! "ParsedText" with
  | None => Some ""
  | Some (PStr s) => Some s
  | Some _ => None
  end.

Definition page_trimmed (p : gmap string pyval) : string :=
  py_strip (default "" (page_text p)).

(** Pages whose text, where the page succeeded, is a string. *)
Definition text_pages (pages : list (gmap string pyval)) : Prop :=
  Forall (λ p, page_ok p = true → is_Some (page_text p)) pages.

(** The segments [extract_text] joins. *)
Definition text_segments (pages : list (gmap string pyval)) : list string :=
  filter (λ t, t ≠ "") (page_trimmed <$> filter (λ p, page_ok p = true) pages).

(** The reading of the specification: the trimmed text of every page that
    succeeded, joined by the separator. *)
Definition extract_text_spec (pages : list (gmap string pyval)) : string :=
  String.concat blank_line (page_trimmed <$> filter (λ p, page_ok p = true) pages).

(** ** [OCRSpaceAPI.extract_words_with_positions] *)

(** The dictionary appended for one word; the three indices are the
    0-based positions [enumerate] hands out. *)
Definition word_entry (page_idx line_idx word_idx : Z)
    (text left top height width : pyval) : gmap string pyval :=
  <["page" := PInt (page_idx + 1)]>
  (<["line" := PInt (line_idx + 1)]>
  (<["word_index" := PInt (word_idx + 1)]>
  (<["text" := text]>
  (<["left" := left]>
  (<["top" := top]>
  (<["height" := height]>
  (<["width" := width]> ∅))))))).

(** [for word_idx, word in enumerate(words)] *)
Fixpoint words_loop (page_idx line_idx word_idx : Z) (words : list pyval)
    (words_data : list (gmap string pyval)) : result (list (gmap string pyval)) :=
  match words with
  | [] => Return words_data
  | word :: rest =>
      let! text := py_get word "WordText" (PStr "") in
      let! left := py_get word "Left" (PInt 0) in
      let! top := py_get word "Top" (PInt 0) in
      let! height := py_get word "Height" (PInt 0) in
      let! width := py_get word "Width" (PInt 0) in
      words_loop page_idx line_idx (word_idx + 1) rest
        (words_data ++ [word_entry page_idx line_idx word_idx text left top height width])
  end.

(** [for line_idx, line in enumerate(lines)] *)
Fixpoint lines_loop (page_idx line_idx : Z) (lines : list pyval)
    (words_data : list (gmap string pyval)) : result (list (gmap string pyval)) :=
  match lines with
  | [] => Return words_data
  | line :: rest =>
      let! words_v := py_get line "Words" (PList []) in
      let! words := py_iter words_v in
      let! words_data' := words_loop page_idx line_idx 0 words words_data in
      lines_loop page_idx (line_idx + 1) rest words_data'
  end.

(** [for page_idx, result in enumerate(parsed_results)] *)
Fixpoint pages_loop (page_idx : Z) (parsed_results : list pyval)
    (words_data : list (gmap string pyval)) : result (list (gmap string pyval)) :=
  match parsed_results with
  | [] => Return words_data
  | res :: rest =>
      let! code := py_get res "FileParseExitCode" PNone in
      if py_eq_int code 1 then
        let! text_overlay := py_get res "TextOverlay" (PDict ∅) in
        let! lines_v := py_get text_overlay "Lines" (PList []) in
        let! lines := py_iter lines_v in
        let! words_data' := lines_loop page_idx 0 lines words_data in
        pages_loop (page_idx + 1) rest words_data'
      else pages_loop (page_idx + 1) rest words_data
  end.

Definition extract_words_with_positions (response_data : gmap string pyval)
  : result (list (gmap string pyval)) :=
  let! parsed_results := py_iter (default (PList []) (response_data !! "ParsedResults")) in
  pages_loop 0 parsed_results [].

(** *** The overlay of a well-formed response *)

Definition dict_list (v : pyval) : option (list (gmap string pyval)) :=
  match v with
  | PList l => mapM as_dict l
  | _ => None
  end.

(** The words of a line: the dictionaries of its [Words] list. *)
Definition line_words (line : gmap string pyval) : option (list (gmap string pyval)) :=
  dict_list (default (PList []) (line !! "Words")).

(** The lines of a page, each as its list of words. *)
Definition page_lines (p : gmap string pyval)
  : option (list (list (gmap string pyval))) :=
  ov ← as_dict (default (PDict ∅) (p !! "TextOverlay"));
  ls ← dict_list (default (PList []) (ov !! "Lines"));
  mapM line_words ls.

(** What a page contributes: its lines when it succeeded, nothing when it
    failed (whatever a failed page holds is never read). *)
Definition page_overlay (p : gmap string pyval)
  : option (list (list (gmap string pyval))) :=
  if page_ok p then page_lines p else Some [].

(** The record of the word [w] at the 0-based positions [i], [j], [k]. *)
Definition word_record (i j k : nat) (w : gmap string pyval) : gmap string pyval :=
  word_entry (Z.of_nat i) (Z.of_nat j) (Z.of_nat k)
    (default (PStr "") (w !! "WordText"))
    (default (PInt 0) (w !! "Left"))
    (default (PInt 0) (w !! "Top"))
    (default (PInt 0) (w !! "Height"))
    (default (PInt 0) (w !! "Width")).

Definition line_records (i j : nat) (ws : list (gmap string pyval))
  : list (gmap string pyval) :=
  imap (word_record i j) ws.

Definition page_records (i : nat) (ls : list (list (gmap string pyval)))
  : list (gmap string pyval) :=
  concat (imap (line_records i) ls).

Definition overlay_records (lss : list (list (list (gmap string pyval))))
  : list (gmap string pyval) :=
  concat (imap page_records lss).

(** ** The world: file system, remote service, logger *)

Inductive fsnode :=
| File (content : list Byte.byte)
| Dir.

Inductive http_method := GET | POST.

(** A call of [requests.get] or [requests.post]: [req_params] is the
    [params=] dictionary, [req_data] the [data=] dictionary, [req_files]
    the uploaded file as (name, content, content type). *)
Record http_request := {
  req_method : http_method;
  req_url : string;
  req_params : gmap string string;
  req_data : gmap string string;
  req_files : option (string * list Byte.byte * string);
  req_timeout : Z
}.

(** What came back: whether the status is below 400, the body decoded as
    JSON when it is JSON, and the raw body. *)
Record http_response := {
  status_ok : bool;
  body_json : option pyval;
  content : list Byte.byte
}.

Inductive http_outcome :=
| NetFailure
| Response (r : http_response).

Inductive log_level := INFO | WARNING | ERROR.

(** A log message: an f-string, or a literal followed by an exception. *)
Inductive log_message :=
| Msg (m : fstring)
| MsgExn (m : string) (e : pyexn).

(** [files] maps the path a [Path] or [open] is given to what it denotes;
    [writable] tells whether [open(path, 'wb')] succeeds; [stat_error]
    tells whether looking the path up fails with an error of the system
    other than the ones that mean the path is not there (a name that is
    too long, a directory that may not be searched); [readable] tells
    whether a file can be opened and read; [write_fails] tells whether
    writing the bytes to the open file fails, and after how many bytes;
    [remote] is the service; [requests_sent] and [log] grow at the end. *)
Record world := {
  files : gmap string fsnode;
  writable : string → bool;
  stat_error : string → bool;
  readable : string → bool;
  write_fails : string → list Byte.byte → option nat;
  remote : http_request → http_outcome;
  requests_sent : list http_request;
  log : list (log_level * log_message)
}.

(** The monad of code that logs, reads and writes files and calls the
    service. *)
Definition M (A : Type) : Type := world → world * result A.

Definition mret {A} (a : A) : M A := λ w, (w, Return a).

Definition raise {A} (e : pyexn) : M A := λ w, (w, Raise e).

Definition bind {A B} (m : M A) (k : A → M B) : M B :=
  λ w, match m w with
       | (w', Return a) => k a w'
       | (w', Raise e) => (w', Raise e)
       end.

Notation "'let*' x ':=' m 'in' k" := (bind m (λ x, k))
  (at level 10, x name, m at level 100, k at level 200).
Notation "m ';;' k" := (bind m (λ _, k))
  (at level 100, k at level 200, right associativity).

(** A computation that neither reads nor changes the world. *)
Definition lift {A} (r : result A) : M A := λ w, (w, r).

(** [try: body except Exception as e: handler(e)] *)
Definition try_except {A} (body : M A) (handler : pyexn → M A) : M A :=
  λ w, match body w with
       | (w', Raise e) => handler e w'
       | r => r
       end.

Definition logger (lvl : log_level) (msg : log_message) : M unit :=
  λ w, ({| files := files w; writable := writable w;
           stat_error := stat_error w; readable := readable w;
           write_fails := write_fails w; remote := remote w;
           requests_sent := requests_sent w;
           log := log w ++ [(lvl, msg)] |}, Return tt).

(** [requests.get] and [requests.post]: the call is recorded and the
    service answers, or the transport fails. *)
Definition send (req : http_request) : M http_response :=
  λ w, let w' := {| files := files w; writable := writable w;
                    stat_error := stat_error w; readable := readable w;
                    write_fails := write_fails w; remote := remote w;
                    requests_sent := requests_sent w ++ [req];
                    log := log w |} in
       match remote w req with
       | NetFailure => (w', Raise RequestException)
       | Response r => (w', Return r)
       end.

(** [response.raise_for_status()] *)
Definition raise_for_status (r : http_response) : M unit :=
  if status_ok r then mret tt else raise RequestException.

(** [response.json()]; its [JSONDecodeError] is a [RequestException]. *)
Definition json (r : http_response) : M pyval :=
  match body_json r with
  | Some v => mret v
  | None => raise RequestException
  end.

(** [Path(p).exists()]: an error of the system that does not mean the
    path is missing is raised, not answered with [False]. *)
Definition path_exists (p : string) : M bool :=
  λ w, if stat_error w p then (w, Raise OSError)
       else (w, Return (bool_decide (is_Some (files w !! p)))).

(** [open(p, 'rb')] followed by reading the whole file: a directory, a
    missing path and a file that cannot be read all raise an [OSError]. *)
Definition open_rb (p : string) : M (list Byte.byte) :=
  λ w, match files w !! p with
       | Some (File data) =>
           if readable w p then (w, Return data) else (w, Raise OSError)
       | _ => (w, Raise OSError)
       end.

Definition put_file (p : string) (data : list Byte.byte) : M unit :=
  λ w, ({| files := <[p := File data]> (files w); writable := writable w;
           stat_error := stat_error w; readable := readable w;
           write_fails := write_fails w;
           remote := remote w; requests_sent := requests_sent w;
           log := log w |}, Return tt).

(** [open(p, 'wb')]: the file is created or truncated. *)
Definition open_wb (p : string) : M unit :=
  λ w, if writable w p then put_file p [] w else (w, Raise OSError).

(** [f.write(data)] on the file just opened, up to the closing of the
    file: when the write fails the bytes that got through stay in the
    file. *)
Definition file_write (p : string) (data : list Byte.byte) : M unit :=
  λ w, match write_fails w p data with
       | Some n => ((put_file p (take n data) w).1, Raise OSError)
       | None => put_file p data w
       end.

(** ** Paths and case *)

(** [str.lower] on the code points below 256. *)
Definition lower_char (c : ascii) : ascii :=
  let n := N_of_ascii c in
  if ((65 <=? n) && (n <=? 90) || (192 <=? n) && (n <=? 222) && negb (n =? 215))%N
  then ascii_of_N (n + 32) else c.

Fixpoint py_lower (s : string) : string :=
  match s with
  | EmptyString => EmptyString
  | String c s' => String (lower_char c) (py_lower s')
  end.

(** [s.split('/')] *)
Fixpoint split_slash (cur : string) (s : string) : list string :=
  match s with
  | EmptyString => [String.rev cur]
  | String c s' =>
      if Ascii.eqb c "/" then String.rev cur :: split_slash EmptyString s'
      else split_slash (String c cur) s'
  end.

(** The final component of a POSIX path: empty components and single dots
    do not count. *)
Definition path_name (p : string) : string :=
  default "" (last (filter (λ x, x ≠ "" ∧ x ≠ ".") (split_slash "" p))).

(** [name.rfind('.')] *)
Fixpoint rfind_dot (name : string) : option nat :=
  match name with
  | EmptyString => None
  | String c name' =>
      match rfind_dot name' with
      | Some i => Some (S i)
      | None => if Ascii.eqb c "." then Some 0 else None
      end
  end.

(** [Path(p).suffix]: the name from its last dot on, when that dot is
    neither the first nor the last character. *)
Definition path_suffix (p : string) : string :=
  let name := path_name p in
  match rfind_dot name with
  | Some i =>
      if (0 <? i) && (i <? String.length name - 1)
      then String.substring i (String.length name - i) name
      else ""
  | None => ""
  end.

(** ** The client *)

Record OCRSpaceAPI := { api_key : string }.

Definition POST_ENDPOINT : string := "https://api.ocr.space/parse/image".
Definition GET_ENDPOINT : string := "https://api.ocr.space/parse/imageurl".

Definition LANGUAGES : list (string * string) :=
  [("ara", "Arabic"); ("bul", "Bulgarian"); ("chs", "Chinese Simplified");
   ("cht", "Chinese Traditional"); ("hrv", "Croatian"); ("cze", "Czech");
   ("dan", "Danish"); ("dut", "Dutch"); ("eng", "English"); ("fin", "Finnish");
   ("fre", "French"); ("ger", "German"); ("gre", "Greek"); ("hun", "Hungarian");
   ("kor", "Korean"); ("ita", "Italian"); ("jpn", "Japanese"); ("pol", "Polish");
   ("por", "Portuguese"); ("rus", "Russian"); ("slv", "Slovenian");
   ("spa", "Spanish"); ("swe", "Swedish"); ("tha", "Thai"); ("tur", "Turkish");
   ("ukr", "Ukrainian"); ("vnm", "Vietnamese");
   ("auto", "Auto-detect (Engine 2 only)")].

(** The keyword arguments of [ocr_space], typed as the signature annotates
    them: the flags are [bool]s and the engine is an [int]. *)
Record options := {
  language : string;
  is_overlay_required : bool;
  filetype : option string;
  detect_orientation : bool;
  is_create_searchable_pdf : bool;
  is_searchable_pdf_hide_text_layer : bool;
  scale : bool;
  is_table : bool;
  ocr_engine : Z
}.

Definition default_options : options :=
  {| language := "eng"; is_overlay_required := false; filetype := None;
     detect_orientation := false; is_create_searchable_pdf := false;
     is_searchable_pdf_hide_text_layer := false; scale := false;
     is_table := false; ocr_engine := 1 |}.

(** [str(b)] for a boolean. *)
Definition str_bool (b : bool) : string := if b then "True" else "False".

(** [_get_content_type] *)
Definition content_types : gmap string string :=
  list_to_map
    [(".jpg", "image/jpeg"); (".jpeg", "image/jpeg");
     (".png", "image/png"); (".gif", "image/gif");
     (".webp", "image/webp"); (".tiff", "image/tiff");
     (".tif", "image/tiff"); (".pdf", "application/pdf")].

Definition _get_content_type (extension : string) : string :=
  default "application/octet-stream" (content_types !! extension).

(** [_process_response] *)
Definition _process_response (response_data : pyval) : M pyval :=
  let* errored := lift (py_get response_data "IsErroredOnProcessing" (PBool false)) in
  if py_truthy errored then
    let* error_msg := lift (py_get response_data "ErrorMessage" (PStr "Unknown error")) in
    let* error_details := lift (py_get response_data "ErrorDetails" (PStr "")) in
    raise (Exception_ [Lit "OCR processing error: "; Fmt error_msg;
                       Lit ". Details: "; Fmt error_details])
  else
    let* ocr_exit_code := lift (py_get response_data "OCRExitCode" (PInt 0)) in
    if py_eq_int ocr_exit_code 3 then
      raise (Exception_ [Lit "All OCR processing failed"])
    else if py_eq_int ocr_exit_code 4 then
      raise (Exception_ [Lit "Fatal OCR error occurred"])
    else
      (if py_eq_int ocr_exit_code 2
       then logger WARNING (Msg [Lit "Partial OCR success - some pages may have failed"])
       else mret tt);;
      let* processing_time :=
        lift (py_get response_data "ProcessingTimeInMilliseconds" (PStr "Unknown")) in
      logger INFO (Msg [Lit "OCR completed in "; Fmt processing_time; Lit "ms"]);;
      mret response_data.

(** [_ocr_from_url] *)
Definition _ocr_from_url (url : string) (params : gmap string string) : M pyval :=
  let params := <["url" := url]> params in
  logger INFO (Msg [Lit "Processing OCR from URL: "; Fmt (PStr url)]);;
  let* response :=
    send {| req_method := GET; req_url := GET_ENDPOINT; req_params := params;
            req_data := ∅; req_files := None; req_timeout := 60 |} in
  raise_for_status response;;
  let* data := json response in
  _process_response data.

(** [_ocr_from_file] *)
Definition _ocr_from_file (file_path : string) (params : gmap string string) : M pyval :=
  let* found := path_exists file_path in
  if negb found then
    raise (FileNotFoundError [Lit "File not found: "; FmtPath file_path])
  else
    let content_type := _get_content_type (py_lower (path_suffix file_path)) in
    logger INFO (Msg [Lit "Processing OCR from file: "; FmtPath file_path;
                      Lit " ("; Fmt (PStr content_type); Lit ")"]);;
    let* file := open_rb file_path in
    let* response :=
      send {| req_method := POST; req_url := POST_ENDPOINT; req_params := ∅;
              req_data := params;
              req_files := Some (path_name file_path, file, content_type);
              req_timeout := 120 |} in
    raise_for_status response;;
    let* data := json response in
    _process_response data.

Definition base64_prefix_error : pyexn :=
  ValueError
    [Lit "Base64 string must include data URI prefix (e.g., data:image/jpeg;base64,...)"].

(** [_ocr_from_base64] *)
Definition _ocr_from_base64 (base64_string : string) (params : gmap string string)
  : M pyval :=
  if negb (String.prefix "data:" base64_string) then
    raise base64_prefix_error
  else
    let params := <["base64Image" := base64_string]> params in
    logger INFO (Msg [Lit "Processing OCR from base64 data"]);;
    let* response :=
      send {| req_method := POST; req_url := POST_ENDPOINT; req_params := ∅;
              req_data := params; req_files := None; req_timeout := 120 |} in
    raise_for_status response;;
    let* data := json response in
    _process_response data.

(** The request parameters [ocr_space] prepares. *)
Definition request_params (self : OCRSpaceAPI) (o : options) : gmap string string :=
  let params : gmap string string :=
    list_to_map
      [("apikey", api_key self);
       ("language", language o);
       ("isOverlayRequired", py_lower (str_bool (is_overlay_required o)));
       ("detectOrientation", py_lower (str_bool (detect_orientation o)));
       ("isCreateSearchablePdf", py_lower (str_bool (is_create_searchable_pdf o)));
       ("isSearchablePdfHideTextLayer",
         py_lower (str_bool (is_searchable_pdf_hide_text_layer o)));
       ("scale", py_lower (str_bool (scale o)));
       ("isTable", py_lower (str_bool (is_table o)));
       ("OCREngine", pretty (ocr_engine o))] in
  match filetype o with
  | Some ft => if py_truthy (PStr ft) then <["filetype" := ft]> params else params
  | None => params
  end.

(** The four messages of the argument validation. *)
Definition input_type_error : pyexn :=
  ValueError [Lit "input_type must be 'url', 'file', or 'base64'"].

Definition language_error (language : string) : pyexn :=
  ValueError [Lit "Unsupported language: "; Fmt (PStr language);
              Lit ". Use one of: "; Fmt (PList (PStr <$> LANGUAGES.*1))].

Definition engine_error : pyexn :=
  ValueError [Lit "ocr_engine must be 1 or 2"].

Definition auto_engine_error : pyexn :=
  ValueError [Lit "Auto-detect language is only available with OCR Engine 2"].

(** The [if]/[elif] chain inside the [try] of [ocr_space]. *)
Definition dispatch (input_type input_value : string) (params : gmap string string)
  : M pyval :=
  if String.eqb input_type "url" then _ocr_from_url input_value params
  else if String.eqb input_type "file" then _ocr_from_file input_value params
  else if String.eqb input_type "base64" then _ocr_from_base64 input_value params
  else mret PNone.

Definition is_request_exception (e : pyexn) : bool :=
  match e with
  | RequestException => true
  | _ => false
  end.

(** The two [except] clauses of [ocr_space]: log, then raise again. *)
Definition reraise_logged (e : pyexn) : M pyval :=
  if is_request_exception e
  then logger ERROR (MsgExn "API request failed: " e);; raise e
  else logger ERROR (MsgExn "OCR processing failed: " e);; raise e.

(** [ocr_space] *)
Definition ocr_space (self : OCRSpaceAPI) (input_type input_value : string)
    (o : options) : M pyval :=
  if negb (bool_decide (input_type ∈ ["url"; "file"; "base64"])) then
    raise input_type_error
  else if negb (bool_decide (language o ∈ LANGUAGES.*1)) then
    raise (language_error (language o))
  else if negb (bool_decide (ocr_engine o ∈ [1; 2]%Z)) then
    raise engine_error
  else if String.eqb (language o) "auto" && negb (ocr_engine o =? 2)%Z then
    raise auto_engine_error
  else
    try_except (dispatch input_type input_value (request_params self o)) reraise_logged.

(** [requests.get(pdf_url, timeout=60)]: a URL that is not a string is
    rejected before anything is sent. *)
Definition pdf_request (u : string) : http_request :=
  {| req_method := GET; req_url := u; req_params := ∅; req_data := ∅;
     req_files := None; req_timeout := 60 |}.

Definition fetch (url : pyval) : M http_response :=
  match url with
  | PStr u => send (pdf_request u)
  | _ => raise RequestException
  end.

(** [download_searchable_pdf] *)

Definition download_searchable_pdf (response_data : gmap string pyval)
    (output_path : string) : M bool :=
  let pdf_url := default PNone (response_data !! "SearchablePDFURL") in
  if negb (py_truthy pdf_url) then
    logger WARNING (Msg [Lit "No searchable PDF URL found in response"]);;
    mret false
  else
    try_except
      (logger INFO (Msg [Lit "Downloading searchable PDF from: "; Fmt pdf_url]);;
       let* pdf_response := fetch pdf_url in
       raise_for_status pdf_response;;
       open_wb output_path;;
       file_write output_path (content pdf_response);;
       logger INFO (Msg [Lit "Searchable PDF saved to: "; Fmt (PStr output_path)]);;
       mret true)
      (λ e, logger ERROR (MsgExn "Failed to download searchable PDF: " e);;
            mret false).

(** ** Base64 and [image_to_base64] *)

(** Six bits, the most significant first. *)
Definition sextet : Type := bool * bool * bool * bool * bool * bool.

Definition b64_alphabet : list ascii :=
  list_ascii_of_string
    "ABCDEFGHIJKLMNOPQRSTUVWXYZabcdefghijklmnopqrstuvwxyz0123456789+/".

Definition pad : ascii := "="%char.

Definition sextet_value (s : sextet) : nat :=
  let '(b5, b4, b3, b2, b1, b0) := s in
  32 * Nat.b2n b5 + 16 * Nat.b2n b4 + 8 * Nat.b2n b3
  + 4 * Nat.b2n b2 + 2 * Nat.b2n b1 + Nat.b2n b0.

Definition sextet_of_value (n : nat) : sextet :=
  (Nat.testbit n 5, Nat.testbit n 4, Nat.testbit n 3,
   Nat.testbit n 2, Nat.testbit n 1, Nat.testbit n 0).

Definition b64_char (s : sextet) : ascii :=
  nth (sextet_value s) b64_alphabet pad.

Fixpoint index_of (c : ascii) (l : list ascii) : option nat :=
  match l with
  | [] => None
  | a :: l' => if Ascii.eqb a c then Some 0 else S <$> index_of c l'
  end.

Definition b64_sextet (c : ascii) : option sextet :=
  sextet_of_value <$> index_of c b64_alphabet.

(** Three bytes make four characters; one or two bytes at the end are
    filled with zero bits and padded with [=] (RFC 4648, section 4). *)
Fixpoint b64encode_chars (data : list Byte.byte) : list ascii :=
  match data with
  | [] => []
  | [a] =>
      let '(a0, (a1, (a2, (a3, (a4, (a5, (a6, a7))))))) := Byte.to_bits a in
      [b64_char (a7, a6, a5, a4, a3, a2);
       b64_char (a1, a0, false, false, false, false); pad; pad]
  | [a; b] =>
      let '(a0, (a1, (a2, (a3, (a4, (a5, (a6, a7))))))) := Byte.to_bits a in
      let '(b0, (b1, (b2, (b3, (b4, (b5, (b6, b7))))))) := Byte.to_bits b in
      [b64_char (a7, a6, a5, a4, a3, a2);
       b64_char (a1, a0, b7, b6, b5, b4);
       b64_char (b3, b2, b1, b0, false, false); pad]
  | a :: b :: c :: rest =>
      let '(a0, (a1, (a2, (a3, (a4, (a5, (a6, a7))))))) := Byte.to_bits a in
      let '(b0, (b1, (b2, (b3, (b4, (b5, (b6, b7))))))) := Byte.to_bits b in
      let '(c0, (c1, (c2, (c3, (c4, (c5, (c6, c7))))))) := Byte.to_bits c in
      b64_char (a7, a6, a5, a4, a3, a2)
      :: b64_char (a1, a0, b7, b6, b5, b4)
      :: b64_char (b3, b2, b1, b0, c7, c6)
      :: b64_char (c5, c4, c3, c2, c1, c0)
      :: b64encode_chars rest
  end.

(** [base64.b64encode(data).decode('utf-8')] *)
Definition b64encode (data : list Byte.byte) : string :=
  string_of_list_ascii (b64encode_chars data).

(** The strict decoder of padded Base64: four characters make three
    bytes, and padding is accepted in the last group only. [None] stands
    for [binascii.Error]. *)
Fixpoint b64decode_chars (l : list ascii) : option (list Byte.byte) :=
  match l with
  | [] => Some []
  | x0 :: x1 :: x2 :: x3 :: rest =>
      '(a7, a6, a5, a4, a3, a2) ← b64_sextet x0;
      '(a1, a0, b7, b6, b5, b4) ← b64_sextet x1;
      let a := Byte.of_bits (a0, (a1, (a2, (a3, (a4, (a5, (a6, a7))))))) in
      if Ascii.eqb x3 pad then
        match rest with
        | [] =>
            if Ascii.eqb x2 pad then Some [a]
            else
              '(b3, b2, b1, b0, _, _) ← b64_sextet x2;
              Some [a; Byte.of_bits (b0, (b1, (b2, (b3, (b4, (b5, (b6, b7)))))))]
        | _ => None
        end
      else
        '(b3, b2, b1, b0, c7, c6) ← b64_sextet x2;
        '(c5, c4, c3, c2, c1, c0) ← b64_sextet x3;
        tail ← b64decode_chars rest;
        Some (a :: Byte.of_bits (b0, (b1, (b2, (b3, (b4, (b5, (b6, b7)))))))
                :: Byte.of_bits (c0, (c1, (c2, (c3, (c4, (c5, (c6, c7)))))))
                :: tail)
  | _ => None
  end.

Definition b64decode (s : string) : option (list Byte.byte) :=
  b64decode_chars (list_ascii_of_string s).

Definition mime_types : gmap string string :=
  list_to_map
    [(".jpg", "image/jpeg"); (".jpeg", "image/jpeg");
     (".png", "image/png"); (".gif", "image/gif");
     (".webp", "image/webp"); (".tiff", "image/tiff");
     (".tif", "image/tiff")].

(** [image_to_base64] *)
Definition image_to_base64 (image_path : string) : M string :=
  let* found := path_exists image_path in
  if negb found then
    raise (FileNotFoundError [Lit "Image file not found: "; FmtPath image_path])
  else
    let extension := py_lower (path_suffix image_path) in
    let mime_type := default "image/jpeg" (mime_types !! extension) in
    let* data := open_rb image_path in
    let encoded := b64encode data in
    mret ("data:" +:+ mime_type +:+ ";base64," +:+ encoded).

(** *** Taking a data URI apart *)

(** [s] without the prefix [pat], when it has it. *)
Fixpoint strip_prefix (pat s : string) : option string :=
  match pat with
  | EmptyString => Some s
  | String a pat' =>
      match s with
      | String b s' => if Ascii.eqb a b then strip_prefix pat' s' else None
      | EmptyString => None
      end
  end.

(** What follows the first occurrence of [pat] in [s]. *)
Fixpoint drop_through (pat s : string) : option string :=
  match strip_prefix pat s with
  | Some r => Some r
  | None =>
      match s with
      | EmptyString => None
      | String _ s' => drop_through pat s'
      end
  end.

(** The payload of a data URI [data:<mime>;base64,<payload>]. *)
Definition data_uri_payload (uri : string) : option string :=
  r ← strip_prefix "data:" uri; drop_through ";base64," r.

(** ** Statements: the predicates of the specification *)

(** The arguments [ocr_space] accepts. *)
Definition valid_arguments (input_type : string) (o : options) : Prop :=
  input_type ∈ ["url"; "file"; "base64"]
  ∧ language o ∈ LANGUAGES.*1
  ∧ (ocr_engine o = 1 ∨ ocr_engine o = 2)%Z
  ∧ ¬ (language o = "auto" ∧ ocr_engine o ≠ 2%Z).

Definition validation_errors (o : options) : list pyexn :=
  [input_type_error; language_error (language o); engine_error; auto_engine_error].

(** The response is flagged: its [IsErroredOnProcessing] is truthy. *)
Definition flagged (d : gmap string pyval) : bool :=
  py_truthy (default (PBool false) (d !! "IsErroredOnProcessing")).

(** The [OCRExitCode] of the response, 0 when absent, equals [n]. *)
Definition exit_code_is (d : gmap string pyval) (n : Z) : bool :=
  py_eq_int (default (PInt 0) (d !! "OCRExitCode")) n.

(** The three processing errors of [_process_response]. *)
Definition service_error (d : gmap string pyval) : pyexn :=
  Exception_ [Lit "OCR processing error: ";
              Fmt (default (PStr "Unknown error") (d !! "ErrorMessage"));
              Lit ". Details: ";
              Fmt (default (PStr "") (d !! "ErrorDetails"))].

Definition all_failed_error : pyexn :=
  Exception_ [Lit "All OCR processing failed"].

Definition fatal_error : pyexn :=
  Exception_ [Lit "Fatal OCR error occurred"].

Definition partial_warning : log_level * log_message :=
  (WARNING, Msg [Lit "Partial OCR success - some pages may have failed"]).

(** A string that neither begins nor ends with whitespace. *)
Definition trimmed (t : string) : Prop :=
  (∀ c u, t = String c u → is_py_space c = false)
  ∧ (∀ c u, t = u +:+ String c "" → is_py_space c = false).

(** [pat] occurs in [s]. *)
Definition occurs (pat s : string) : bool :=
  bool_decide (is_Some (drop_through pat s)).

(** What a request strategy can raise: of the [ValueError]s only the one of
    the Base64 strategy. *)
Definition strategy_exception (e : pyexn) : Prop :=
  match e with
  | ValueError _ => e = base64_prefix_error
  | _ => True
  end.

#[global] Instance valid_arguments_dec input_type o :
  Decision (valid_arguments input_type o).
Proof. unfold valid_arguments. apply _. Defined.

(** ** Sample responses and worlds *)

Definition page (code : Z) (text : string) : gmap string pyval :=
  <["FileParseExitCode" := PInt code]> (<["ParsedText" := PStr text]> ∅).

(** Two pages that succeeded and one that failed. *)
Definition hello_world_pages : list (gmap string pyval) :=
  [page 1 "Hello"; page 3 "unreadable"; page 1 "World"].

(** A page that succeeded with nothing but whitespace on it, between two
    pages with text. *)
Definition blank_between_pages : list (gmap string pyval) :=
  [page 1 "Hello"; page 1 "  "; page 1 "World"].

(** One page whose own text holds two blank lines in a row. *)
Definition blank_lines_page : list (gmap string pyval) :=
  [page 1 ("a" +:+ blank_line +:+ blank_line +:+ "b")].

Definition response_of (pages : list (gmap string pyval)) : gmap string pyval :=
  <["ParsedResults" := PList (PDict <$> pages)]> ∅.

Definition word (text : string) (left top height width : Z) : gmap string pyval :=
  <["WordText" := PStr text]>
  (<["Left" := PInt left]>
  (<["Top" := PInt top]>
  (<["Height" := PInt height]>
  (<["Width" := PInt width]> ∅)))).

Definition two_words : list (gmap string pyval) :=
  [word "Hello" 10 20 12 40; word "World" 55 20 12 42].

(** A page that succeeded, with an overlay of the given lines. *)
Definition overlay_page (lines : list (list (gmap string pyval)))
  : gmap string pyval :=
  <["TextOverlay" :=
      PDict (<["Lines" :=
                 PList ((λ ws, PDict (<["Words" := PList (PDict <$> ws)]> ∅))
                        <$> lines)]> ∅)]>
    (page 1 "Hello World").

Definition client : OCRSpaceAPI := {| api_key := "helloworld" |}.

(** A service that answers every request with an empty result of exit
    code [code], and a file system holding one small image. *)
Definition answer (code : Z) : http_response :=
  {| status_ok := true;
     body_json := Some (PDict (<["OCRExitCode" := PInt code]> ∅));
     content := [x25; x50; x44; x46] |}.

Definition sample_world : world :=
  {| files := <["scan.png" := File [x89; x50; x4e; x47]]> ∅;
     writable := λ _, true;
     stat_error := λ _, false;
     readable := λ _, true;
     write_fails := λ _ _, None;
     remote := λ _, Response (answer 1);
     requests_sent := [];
     log := [] |}.

(** ** The constructor, the language table and the one-shot helpers *)

(** [os.getenv(key, dflt)] on the process environment [environ]. *)
Definition getenv (environ : gmap string string) (key dflt : string) : string :=
  default dflt (environ !! key).

Definition demo_key_warning : log_level * log_message :=
  (WARNING,
   Msg [Lit "Using demo API key. Get your free key at https://ocr.space/ocrapi"]).

(** [OCRSpaceAPI.__init__]: [api_key or os.getenv('OCR_SPACE_API_KEY',
    'helloworld')], then the warning when the demo key is in use. *)
Definition __init__ (environ : gmap string string) (api_key : option string)
  : M OCRSpaceAPI :=
  let key :=
    match api_key with
    | Some k =>
        if py_truthy (PStr k) then k
        else getenv environ "OCR_SPACE_API_KEY" "helloworld"
    | None => getenv environ "OCR_SPACE_API_KEY" "helloworld"
    end in
  (if String.eqb key "helloworld"
   then logger WARNING
          (Msg [Lit "Using demo API key. Get your free key at https://ocr.space/ocrapi"])
   else mret tt);;
  mret {| api_key := key |}.

(** [get_supported_languages]: a copy of the class dictionary. *)
Definition get_supported_languages : gmap string string :=
  list_to_map LANGUAGES.

(** [ocr_from_url], [ocr_from_file], [ocr_from_base64]: a client built
    from the environment, then one call of [ocr_space]. *)
Definition ocr_from_url (environ : gmap string string) (url : string)
    (o : options) : M pyval :=
  let* client := __init__ environ None in
  ocr_space client "url" url o.

Definition ocr_from_file (environ : gmap string string) (file_path : string)
    (o : options) : M pyval :=
  let* client := __init__ environ None in
  ocr_space client "file" file_path o.

Definition ocr_from_base64 (environ : gmap string string) (base64_data : string)
    (o : options) : M pyval :=
  let* client := __init__ environ None in
  ocr_space client "base64" base64_data o.

(** ** Statements about requests and replies *)

(** The requests of the three strategies. *)
Definition url_request (url : string) (params : gmap string string)
  : http_request :=
  {| req_method := GET; req_url := GET_ENDPOINT;
     req_params := <["url" := url]> params; req_data := ∅;
     req_files := None; req_timeout := 60 |}.

Definition file_request (file_path : string) (data : list Byte.byte)
    (params : gmap string string) : http_request :=
  {| req_method := POST; req_url := POST_ENDPOINT; req_params := ∅;
     req_data := params;
     req_files := Some (path_name file_path, data,
                        _get_content_type (py_lower (path_suffix file_path)));
     req_timeout := 120 |}.

Definition base64_request (payload : string) (params : gmap string string)
  : http_request :=
  {| req_method := POST; req_url := POST_ENDPOINT; req_params := ∅;
     req_data := <["base64Image" := payload]> params;
     req_files := None; req_timeout := 120 |}.

(** What the three strategies share once the request is built. *)
Definition exchange (req : http_request) : M pyval :=
  let* response := send req in
  raise_for_status response;;
  let* data := json response in
  _process_response data.

(** What a call makes of the reply of the service. *)
Definition reply_result (reply : http_outcome) : result pyval :=
  match reply with
  | NetFailure => Raise RequestException
  | Response resp =>
      if status_ok resp then
        match body_json resp with
        | None => Raise RequestException
        | Some (PDict d) =>
            if flagged d then Raise (service_error d)
            else if exit_code_is d 3 then Raise all_failed_error
            else if exit_code_is d 4 then Raise fatal_error
            else Return (PDict d)
        | Some _ => Raise AttributeError
        end
      else Raise RequestException
  end.

(** The record the [except] clauses of [ocr_space] log for [e]. *)
Definition error_record (e : pyexn) : log_level * log_message :=
  (ERROR,
   MsgExn (if is_request_exception e then "API request failed: "
           else "OCR processing failed: ") e).

(** Whitespace only. *)
Definition all_space (s : string) : Prop :=
  Forall (λ c, is_py_space c = true) (list_ascii_of_string s).

(** The page, line and word numbers a record carries. *)
Definition int_field (r : gmap string pyval) (key : string) : Z :=
  match r !! key with
  | Some (PInt z) => z
  | _ => 0
  end.

Definition position (r : gmap string pyval) : Z * Z * Z :=
  (int_field r "page", int_field r "line", int_field r "word_index").

(** Reading order: by page, then line, then word. *)
Definition before (a b : Z * Z * Z) : Prop :=
  let '(p1, l1, k1) := a in
  let '(p2, l2, k2) := b in
  (p1 < p2 ∨ (p1 = p2 ∧ (l1 < l2 ∨ (l1 = l2 ∧ k1 < k2))))%Z.

(** The number of words on the pages of an overlay. *)
Definition word_count (lss : list (list (list (gmap string pyval)))) : nat :=
  sum_list ((λ ls, sum_list (length <$> ls)) <$> lss).

(** A world whose service cannot be reached and whose disk holds a
    directory. *)
Definition offline_world : world :=
  {| files := <["scans" := Dir]> (<["scan.png" := File [x89; x50; x4e; x47]]> ∅);
     writable := λ p, negb (String.eqb p "scans");
     stat_error := λ _, false;
     readable := λ _, true;
     write_fails := λ _ _, None;
     remote := λ _, NetFailure;
     requests_sent := [];
     log := [] |}.

(** From [w] to [w'] the disk and the service are the same, exactly the
    requests [reqs] were sent, and the log grew by records that are not
    errors. *)
Definition quiet_step (w w' : world) (reqs : list http_request) : Prop :=
  files w' = files w ∧ writable w' = writable w ∧ remote w' = remote w
  ∧ requests_sent w' = requests_sent w ++ reqs
  ∧ ∃ l, log w' = log w ++ l ∧ Forall (λ x, x.1 ≠ ERROR) l.

(** A call of [ocr_space] that went from [w] to [w'] with the result
    [res]: as [quiet_step], and when the result is an exception its record
    closes the log. *)
Definition call_step (w w' : world) (reqs : list http_request)
    (res : result pyval) : Prop :=
  files w' = files w ∧ writable w' = writable w ∧ remote w' = remote w
  ∧ requests_sent w' = requests_sent w ++ reqs
  ∧ ∃ l, Forall (λ x, x.1 ≠ ERROR) l
         ∧ log w' = log w ++ l ++ match res with
                                  | Raise e => [error_record e]
                                  | Return _ => []
                                  end.

(** The JSON values a [for] loop cannot run over. *)
Definition not_iterable (v : pyval) : bool :=
  match v with
  | PNone | PBool _ | PInt _ | PFloat _ => true
  | _ => false
  end.

(** A path whose last component is longer than a file system allows. *)
Definition long_name : string :=
  string_of_list_ascii (replicate 300 "a"%char) +:+ ".png".

(** A world that refuses names of more than 255 characters, holds a file
    that cannot be read, and has no room left for [full.pdf]. *)
Definition guarded_world : world :=
  {| files := <["locked.png" := File [x89; x50; x4e; x47]]>
                (<["scan.png" := File [x89; x50; x4e; x47]]> ∅);
     writable := λ _, true;
     stat_error := λ p, 255 <? String.length (path_name p);
     readable := λ p, negb (String.eqb p "locked.png");
     write_fails := λ p _, if String.eqb p "full.pdf" then Some 0 else None;
     remote := λ _, Response (answer 1);
     requests_sent := [];
     log := [] |}.

(** ** Lemmas *)

Lemma mapM_as_dict_fmap (l : list pyval) (pages : list (gmap string pyval)) :
  mapM as_dict l = Some pages → l = PDict <$> pages.
Proof.
  revert pages. induction l as [|v l IH]; intros pages H.
  - by injection H as <-.
  - destruct v; simplify_eq/=.
    destruct (mapM as_dict l) as [ps|] eqn:E; simplify_eq/=.
    injection H as <-. rewrite fmap_cons. f_equal. by apply IH.
Qed.

Lemma parsed_pages_iter (d : gmap string pyval) pages :
  parsed_pages d = Some pages →
  py_iter (default (PList []) (d !! "ParsedResults")) = Return (PDict <$> pages).
Proof.
  unfold parsed_pages. destruct (d !! "ParsedResults") as [v|]; simpl.
  - destruct v; try discriminate. intros H. by rewrite (mapM_as_dict_fmap _ _ H).
  - by intros [= <-].
Qed.

Lemma page_text_get (p : gmap string pyval) s :
  page_text p = Some s →
  default (PStr "") (p !! "ParsedText") = PStr s ∧ page_trimmed p = py_strip s.
Proof.
  unfold page_trimmed. intros H. rewrite H. split; [|done].
  unfold page_text in H.
  destruct (p !! "ParsedText") as [[]|]; by simplify_eq/=.
Qed.

Lemma truthy_str s : py_truthy (PStr s) = bool_decide (s ≠ "").
Proof.
  simpl. destruct (String.eqb_spec s ""); simpl.
  - by rewrite bool_decide_eq_false_2 by (by intros ?).
  - by rewrite bool_decide_eq_true_2.
Qed.

Lemma extract_text_loop_segments pages texts :
  text_pages pages →
  extract_text_loop (PDict <$> pages) texts = Return (texts ++ text_segments pages).
Proof.
  unfold text_pages, text_segments.
  intros H. revert texts. induction H as [|p pages Hp _ IH]; intros texts.
  - simpl. by rewrite app_nil_r.
  - rewrite fmap_cons. cbn [extract_text_loop py_get rbind].
    rewrite filter_cons. fold (page_ok p).
    destruct (page_ok p) eqn:Hok.
    + rewrite decide_True by done. rewrite fmap_cons, filter_cons.
      destruct (Hp eq_refl) as [s Hs].
      destruct (page_text_get _ _ Hs) as [-> ->].
      cbn [py_strip_method rbind]. rewrite truthy_str.
      case_bool_decide.
      * rewrite decide_True by done. rewrite IH. by rewrite <- app_assoc.
      * rewrite decide_False by (by intros ?). apply IH.
    + rewrite decide_False by (by intros ?). apply IH.
Qed.

Lemma extract_text_segments (d : gmap string pyval) pages :
  parsed_pages d = Some pages →
  text_pages pages →
  extract_text d = Return (String.concat blank_line (text_segments pages)).
Proof.
  intros Hp Ht. unfold extract_text.
  rewrite (parsed_pages_iter _ _ Hp). simpl.
  by rewrite (extract_text_loop_segments _ _ Ht).
Qed.

(** *** The loops of [extract_words_with_positions] *)

Lemma dict_list_fmap v (ds : list (gmap string pyval)) :
  dict_list v = Some ds → v = PList (PDict <$> ds).
Proof.
  destruct v; try discriminate. simpl. intros H.
  by rewrite (mapM_as_dict_fmap _ _ H).
Qed.

Lemma imap_shift {A B} (f : nat → A → B) (j : nat) (l : list A) :
  imap ((λ n, f (j + n)) ∘ S) l = imap (λ n, f (S j + n)) l.
Proof. apply imap_ext. intros n x _. simpl. by rewrite Nat.add_succ_r. Qed.

Lemma words_loop_records i j k (ws : list (gmap string pyval)) acc :
  words_loop (Z.of_nat i) (Z.of_nat j) (Z.of_nat k) (PDict <$> ws) acc
  = Return (acc ++ imap (λ n, word_record i j (k + n)) ws).
Proof.
  revert k acc. induction ws as [|w ws IH]; intros k acc.
  - simpl. by rewrite app_nil_r.
  - rewrite fmap_cons, imap_cons. cbn [words_loop py_get rbind].
    replace (Z.of_nat k + 1)%Z with (Z.of_nat (S k)) by lia.
    rewrite IH, <- app_assoc. simpl. rewrite Nat.add_0_r.
    by rewrite (imap_shift (word_record i j)).
Qed.

Lemma lines_loop_records i j (ls : list (gmap string pyval)) wss acc :
  mapM line_words ls = Some wss →
  lines_loop (Z.of_nat i) (Z.of_nat j) (PDict <$> ls) acc
  = Return (acc ++ concat (imap (λ n, line_records i (j + n)) wss)).
Proof.
  rewrite mapM_Some. intros H. revert j acc.
  induction H as [|l ws ls wss Hl _ IH]; intros j acc.
  - simpl. by rewrite app_nil_r.
  - rewrite fmap_cons, imap_cons. cbn [lines_loop py_get rbind].
    unfold line_words in Hl. rewrite (dict_list_fmap _ _ Hl).
    cbn [py_iter rbind].
    change 0%Z with (Z.of_nat 0). rewrite words_loop_records.
    cbn [rbind]. replace (Z.of_nat j + 1)%Z with (Z.of_nat (S j)) by lia.
    rewrite IH, <- app_assoc. simpl. rewrite Nat.add_0_r.
    by rewrite (imap_shift (line_records i)).
Qed.

Lemma page_lines_loop {A} i (p : gmap string pyval) ls acc
    (k : list (gmap string pyval) → result A) :
  page_lines p = Some ls →
  (let! text_overlay := py_get (PDict p) "TextOverlay" (PDict ∅) in
   let! lines_v := py_get text_overlay "Lines" (PList []) in
   let! lines := py_iter lines_v in
   let! words_data' := lines_loop (Z.of_nat i) 0 lines acc in
   k words_data')
  = k (acc ++ page_records i ls).
Proof.
  unfold page_lines. cbn [py_get rbind].
  destruct (default (PDict ∅) (p !! "TextOverlay")) as [| | | | | |ov];
    try discriminate.
  cbn [as_dict mbind option_bind py_get rbind].
  destruct (dict_list (default (PList []) (ov !! "Lines"))) as [ds|] eqn:E;
    [|discriminate].
  cbn [mbind option_bind]. intros H.
  rewrite (dict_list_fmap _ _ E). cbn [py_iter rbind].
  change 0%Z with (Z.of_nat 0). by rewrite (lines_loop_records _ _ _ _ _ H).
Qed.

Lemma pages_loop_records i (pages : list (gmap string pyval)) lss acc :
  mapM page_overlay pages = Some lss →
  pages_loop (Z.of_nat i) (PDict <$> pages) acc
  = Return (acc ++ concat (imap (λ n, page_records (i + n)) lss)).
Proof.
  rewrite mapM_Some. intros H. revert i acc.
  induction H as [|p ls pages lss Hp _ IH]; intros i acc.
  - simpl. by rewrite app_nil_r.
  - rewrite fmap_cons, imap_cons. cbn [pages_loop].
    replace (Z.of_nat i + 1)%Z with (Z.of_nat (S i)) by lia.
    unfold page_overlay in Hp. change (py_get (PDict p) "FileParseExitCode" PNone)
      with (Return (A:=pyval) (default PNone (p !! "FileParseExitCode"))).
    cbn [rbind]. fold (page_ok p). destruct (page_ok p).
    + rewrite (page_lines_loop _ _ _ _ _ Hp).
      rewrite IH, <- app_assoc. simpl. rewrite Nat.add_0_r.
      by rewrite (imap_shift page_records).
    + injection Hp as <-. rewrite IH. simpl.
      by rewrite (imap_shift page_records).
Qed.

Lemma extract_words_records (d : gmap string pyval) pages lss :
  parsed_pages d = Some pages →
  mapM page_overlay pages = Some lss →
  extract_words_with_positions d = Return (overlay_records lss).
Proof.
  intros Hp Ho. unfold extract_words_with_positions.
  rewrite (parsed_pages_iter _ _ Hp). cbn [rbind].
  change 0%Z with (Z.of_nat 0). by rewrite (pages_loop_records _ _ _ _ Ho).
Qed.

Lemma elem_of_concat_imap {A B} (f : nat → A → list B) (l : list A) (x : B) :
  x ∈ concat (imap f l) ↔ ∃ i y, l !! i = Some y ∧ x ∈ f i y.
Proof.
  rewrite list_elem_of_In, in_concat. split.
  - intros (ys & Hys & Hx). apply list_elem_of_In, elem_of_lookup_imap in Hys.
    destruct Hys as (i & y & -> & Hi). exists i, y. by rewrite list_elem_of_In.
  - intros (i & y & Hi & Hx). exists (f i y). split.
    + apply list_elem_of_In, elem_of_lookup_imap. eauto.
    + by apply list_elem_of_In.
Qed.

Lemma elem_of_overlay_records r lss :
  r ∈ overlay_records lss ↔
  ∃ i ls j ws k w,
    lss !! i = Some ls ∧ ls !! j = Some ws ∧ ws !! k = Some w
    ∧ r = word_record i j k w.
Proof.
  unfold overlay_records, page_records, line_records.
  rewrite elem_of_concat_imap. split.
  - intros (i & ls & Hi & Hr). apply elem_of_concat_imap in Hr.
    destruct Hr as (j & ws & Hj & Hr). apply elem_of_lookup_imap in Hr.
    destruct Hr as (k & w & -> & Hk). by exists i, ls, j, ws, k, w.
  - intros (i & ls & j & ws & k & w & Hi & Hj & Hk & ->).
    exists i, ls. split; [done|]. apply elem_of_concat_imap.
    exists j, ws. split; [done|]. apply elem_of_lookup_imap. eauto.
Qed.

Lemma word_record_page i j k w :
  word_record i j k w !! "page" = Some (PInt (Z.of_nat i + 1)).
Proof. unfold word_record, word_entry. by rewrite lookup_insert_eq. Qed.

Lemma word_record_line i j k w :
  word_record i j k w !! "line" = Some (PInt (Z.of_nat j + 1)).
Proof. unfold word_record, word_entry. by simplify_map_eq. Qed.

Lemma word_record_word_index i j k w :
  word_record i j k w !! "word_index" = Some (PInt (Z.of_nat k + 1)).
Proof. unfold word_record, word_entry. by simplify_map_eq. Qed.

(** *** Strings as lists of characters *)

Lemma chars_app (a b : string) :
  list_ascii_of_string (a +:+ b) = list_ascii_of_string a ++ list_ascii_of_string b.
Proof. induction a as [|c a IH]; simpl; [done|]. by rewrite IH. Qed.

Lemma chars_inj (a b : string) :
  list_ascii_of_string a = list_ascii_of_string b → a = b.
Proof.
  intros H. rewrite <- (string_of_list_ascii_of_string a),
    <- (string_of_list_ascii_of_string b). by rewrite H.
Qed.

Lemma string_app_assoc (a b c : string) : (a +:+ b) +:+ c = a +:+ b +:+ c.
Proof. apply chars_inj. by rewrite !chars_app, app_assoc. Qed.

Lemma string_snoc_inj (a b : string) (c d : ascii) :
  a +:+ String c "" = b +:+ String d "" → c = d.
Proof.
  intros H. apply (f_equal list_ascii_of_string) in H.
  rewrite !chars_app in H. simpl in H. by apply app_inj_tail in H as [_ ?].
Qed.

Lemma string_snoc_cases (t : string) :
  t = "" ∨ ∃ u c, t = u +:+ String c "".
Proof.
  induction t as [|a t IH]; [by left|right].
  destruct IH as [->|(u & c & ->)].
  - by exists "", a.
  - by exists (String a u), c.
Qed.

(** *** [strip] leaves no whitespace at either end *)

Lemma lstrip_chars_head l c t :
  lstrip_chars l = c :: t → is_py_space c = false.
Proof.
  induction l as [|a l IH]; simpl; [done|].
  destruct (is_py_space a) eqn:E; [done|]. by intros [= <- _].
Qed.

Lemma lstrip_chars_suffix l : ∃ pre, l = pre ++ lstrip_chars l.
Proof.
  induction l as [|a l [pre IH]]; simpl.
  - by exists [].
  - destruct (is_py_space a).
    + exists (a :: pre). simpl. by f_equal.
    + by exists [].
Qed.

Lemma rstrip_chars_last l t c :
  rstrip_chars l = t ++ [c] → is_py_space c = false.
Proof.
  unfold rstrip_chars. intros H. apply (f_equal (@rev ascii)) in H.
  rewrite rev_involutive, rev_unit in H. by eapply lstrip_chars_head.
Qed.

Lemma rstrip_chars_prefix l : ∃ post, l = rstrip_chars l ++ post.
Proof.
  unfold rstrip_chars. destruct (lstrip_chars_suffix (rev l)) as [pre H].
  exists (rev pre). rewrite <- rev_app_distr, <- H. by rewrite rev_involutive.
Qed.

Lemma py_strip_trimmed s : trimmed (py_strip s).
Proof.
  unfold py_strip. set (l := lstrip_chars (list_ascii_of_string s)). split.
  - intros c u H. apply (f_equal list_ascii_of_string) in H.
    rewrite list_ascii_of_string_of_list_ascii in H. simpl in H.
    destruct (rstrip_chars_prefix l) as [post Hp]. rewrite H in Hp.
    simpl in Hp. by eapply lstrip_chars_head.
  - intros c u H. apply (f_equal list_ascii_of_string) in H.
    rewrite list_ascii_of_string_of_list_ascii, chars_app in H. simpl in H.
    by eapply rstrip_chars_last.
Qed.

(** *** Joining trimmed, non-empty segments *)

Lemma concat_cons_cons sep (t t' : string) ts :
  String.concat sep (t :: t' :: ts) = t +:+ sep +:+ String.concat sep (t' :: ts).
Proof. done. Qed.

Lemma concat_head sep (t : string) ts c u :
  t = String c u → ∃ v, String.concat sep (t :: ts) = String c v.
Proof. intros ->. destruct ts; simpl; eauto. Qed.

Lemma concat_last sep (ts : list string) :
  ts ≠ [] →
  Forall (λ t, t ≠ "" ∧ trimmed t) ts →
  ∃ v c, String.concat sep ts = v +:+ String c "" ∧ is_py_space c = false.
Proof.
  intros Hne H. induction H as [|t ts [Ht [_ Hlast]] Hts IH]; [done|].
  destruct ts as [|t' ts].
  - destruct (string_snoc_cases t) as [->|(u & c & ->)]; [done|].
    exists u, c. split; [done|]. by eapply Hlast.
  - destruct IH as (v & c & Hv & Hc); [done|].
    exists (t +:+ sep +:+ v), c. split; [|done].
    rewrite concat_cons_cons, Hv. by rewrite !string_app_assoc.
Qed.

Lemma concat_app_join sep (l1 l2 : list string) :
  l1 ≠ [] → l2 ≠ [] →
  String.concat sep (l1 ++ l2)
  = String.concat sep l1 +:+ sep +:+ String.concat sep l2.
Proof.
  intros H1 H2. induction l1 as [|t l1 IH]; [done|].
  destruct l1 as [|t' l1].
  - by destruct l2.
  - change ((t :: t' :: l1) ++ l2) with (t :: t' :: (l1 ++ l2)).
    rewrite !concat_cons_cons.
    change (t' :: l1 ++ l2) with ((t' :: l1) ++ l2). rewrite IH by done.
    by rewrite !string_app_assoc.
Qed.

(** Two successive separators of a join have a segment between them. *)
Lemma concat_between sep (l1 l2 : list string) (t : string) :
  l1 ≠ [] → l2 ≠ [] →
  String.concat sep (l1 ++ t :: l2)
  = String.concat sep l1 +:+ sep +:+ t +:+ sep +:+ String.concat sep l2.
Proof.
  intros H1 H2. rewrite concat_app_join by done.
  destruct l2 as [|t2 l2]; [done|]. by rewrite concat_cons_cons.
Qed.

Lemma concat_not_prefixed (ts : list string) u :
  Forall (λ t, t ≠ "" ∧ trimmed t) ts →
  String.concat blank_line ts ≠ blank_line +:+ u.
Proof.
  intros H E. destruct H as [|t ts [Ht [Hfirst _]] _]; [done|].
  destruct t as [|c t]; [done|].
  destruct (concat_head blank_line (String c t) ts c t eq_refl) as [v Hv].
  rewrite Hv in E. injection E as -> _.
  by specialize (Hfirst LF t eq_refl).
Qed.

Lemma concat_not_suffixed (ts : list string) u :
  Forall (λ t, t ≠ "" ∧ trimmed t) ts →
  String.concat blank_line ts ≠ u +:+ blank_line.
Proof.
  intros H E. destruct ts as [|t ts].
  - simpl in E. by destruct u.
  - destruct (concat_last blank_line (t :: ts)) as (v & c & Hv & Hc); [done..|].
    rewrite Hv in E.
    change blank_line with (String LF "" +:+ String LF "") in E.
    rewrite <- string_app_assoc in E. apply string_snoc_inj in E. by subst c.
Qed.

Lemma text_segments_trimmed pages :
  Forall (λ t, t ≠ "" ∧ trimmed t) (text_segments pages).
Proof.
  unfold text_segments. apply list.Forall_forall. intros t Ht.
  apply list_elem_of_filter in Ht as [Hne Ht].
  split; [done|]. apply list_elem_of_fmap in Ht as (p & -> & _).
  apply py_strip_trimmed.
Qed.

Lemma text_segments_app pages1 pages2 :
  text_segments (pages1 ++ pages2) = text_segments pages1 ++ text_segments pages2.
Proof. unfold text_segments. by rewrite filter_app, fmap_app, filter_app. Qed.

Lemma text_segments_skip p pages :
  page_ok p = false ∨ page_trimmed p = "" →
  text_segments (p :: pages) = text_segments pages.
Proof.
  unfold text_segments. intros H. rewrite filter_cons.
  destruct (decide (page_ok p = true)) as [Hok|]; [|done].
  destruct H as [H|H]; [congruence|].
  rewrite fmap_cons, filter_cons. by rewrite decide_False by (by intros ?).
Qed.

(** *** Equality with an integer literal *)

Lemma SFeqb_finite s1 m1 e1 s2 m2 e2 :
  SFeqb (S754_finite s1 m1 e1) (S754_finite s2 m2 e2) = true →
  s1 = s2 ∧ m1 = m2 ∧ e1 = e2.
Proof.
  unfold SFeqb, SFcompare.
  destruct s1, s2; try discriminate;
    destruct (Z.compare_spec e1 e2); try discriminate;
    rewrite Pos.compare_cont_spec; simpl;
    destruct (Pos.compare_spec m1 m2); try discriminate; auto.
Qed.

Lemma SFeqb_trans x y z :
  SFeqb x y = true → SFeqb x z = true → SFeqb y z = true.
Proof.
  destruct x as [sx|sx| |sx mx ex], y as [sy|sy| |sy my ey],
    z as [sz|sz| |sz mz ez]; try done;
    try (unfold SFeqb; simpl;
         repeat match goal with s : bool |- _ => destruct s end; done).
  by intros (-> & -> & ->)%SFeqb_finite H.
Qed.

Lemma float_eqb_trans (f a b : float) :
  PrimFloat.eqb f a = true → PrimFloat.eqb f b = true → PrimFloat.eqb a b = true.
Proof. rewrite !FloatAxioms.eqb_spec. apply SFeqb_trans. Qed.

Lemma py_eq_int_distinct v n m :
  n ≠ m →
  PrimFloat.eqb (PrimFloat.of_uint63 (Uint63.of_Z n))
                (PrimFloat.of_uint63 (Uint63.of_Z m)) = false →
  py_eq_int v n = true → py_eq_int v m = false.
Proof.
  intros Hne Hf. destruct v as [|b|z|f| | |]; simpl; try done.
  - destruct b; lia.
  - lia.
  - intros H.
    destruct (PrimFloat.eqb f (PrimFloat.of_uint63 (Uint63.of_Z m))) eqn:E; [|done].
    by rewrite (float_eqb_trans _ _ _ H E) in Hf.
Qed.

(** *** Response validation *)

Lemma process_response_dict (d : gmap string pyval) w :
  _process_response (PDict d) w =
  if flagged d then (w, Raise (service_error d))
  else if exit_code_is d 3 then (w, Raise all_failed_error)
  else if exit_code_is d 4 then (w, Raise fatal_error)
  else
    ((if exit_code_is d 2
      then logger WARNING (Msg [Lit "Partial OCR success - some pages may have failed"])
      else mret tt);;
     logger INFO (Msg [Lit "OCR completed in ";
                       Fmt (default (PStr "Unknown") (d !! "ProcessingTimeInMilliseconds"));
                       Lit "ms"]);;
     mret (PDict d)) w.
Proof.
  unfold _process_response, flagged, exit_code_is, bind, lift. simpl.
  destruct (py_truthy _); [done|].
  destruct (py_eq_int _ 3); [done|].
  by destruct (py_eq_int _ 4).
Qed.

Lemma process_response_raise v w w' e :
  _process_response v w = (w', Raise e) →
  e = AttributeError ∨ ∃ m, e = Exception_ m.
Proof.
  destruct v as [| | | | | |d]; try (intros [= _ <-]; by left).
  rewrite process_response_dict. unfold service_error, all_failed_error, fatal_error.
  repeat case_match; try (intros [= _ <-]; right; eauto);
    unfold bind, logger, mret; simpl; discriminate.
Qed.

(** *** The request strategies *)

Lemma process_response_strategy_exception v w w' e :
  _process_response v w = (w', Raise e) → strategy_exception e.
Proof. intros [->|[m ->]]%process_response_raise; done. Qed.

Ltac run_strategy :=
  unfold bind, logger, send, raise_for_status, json, path_exists, open_rb,
    raise, mret; simpl;
  repeat case_match; simplify_eq/=; try done;
  try (by intros [= _ <-]);
  eauto using process_response_strategy_exception.

Lemma ocr_from_url_raise url params w w' e :
  _ocr_from_url url params w = (w', Raise e) → strategy_exception e.
Proof. unfold _ocr_from_url. run_strategy. Qed.

Lemma ocr_from_file_raise file_path params w w' e :
  _ocr_from_file file_path params w = (w', Raise e) → strategy_exception e.
Proof. unfold _ocr_from_file. run_strategy. Qed.

Lemma ocr_from_base64_raise payload params w w' e :
  _ocr_from_base64 payload params w = (w', Raise e) → strategy_exception e.
Proof. unfold _ocr_from_base64. run_strategy. Qed.

Lemma dispatch_raise input_type input_value params w w' e :
  dispatch input_type input_value params w = (w', Raise e) → strategy_exception e.
Proof.
  unfold dispatch. repeat case_match;
    eauto using ocr_from_url_raise, ocr_from_file_raise, ocr_from_base64_raise.
  done.
Qed.

Lemma reraise_logged_raises e w :
  ∃ w', reraise_logged e w = (w', Raise e)
        ∧ files w' = files w ∧ requests_sent w' = requests_sent w.
Proof.
  unfold reraise_logged, bind, logger, raise.
  destruct (is_request_exception e); simpl; eauto.
Qed.

Lemma strategy_exception_not_validation e o :
  strategy_exception e → e ∉ validation_errors o.
Proof.
  unfold validation_errors, input_type_error, language_error, engine_error,
    auto_engine_error.
  intros H Hin. repeat (apply elem_of_cons in Hin as [->|Hin]); try done.
  by apply elem_of_nil in Hin.
Qed.

(** *** Argument validation *)

Ltac list_mem :=
  subst; rewrite ?elem_of_cons, ?elem_of_nil in *; intuition congruence.

Ltac by_decide :=
  match goal with |- ?P => apply (bool_decide_unpack P); by vm_compute end.

Lemma ocr_space_valid self input_type input_value o w :
  valid_arguments input_type o →
  ocr_space self input_type input_value o w
  = try_except (dispatch input_type input_value (request_params self o))
      reraise_logged w.
Proof.
  intros (Hit & Hl & He & Ha). unfold ocr_space.
  rewrite !bool_decide_eq_true_2; [simpl| |done..].
  - destruct (String.eqb_spec (language o) "auto") as [E|E]; [|done].
    destruct (Z.eqb_spec (ocr_engine o) 2) as [E2|E2]; [done|].
    by destruct Ha.
  - destruct He as [-> | ->]; list_mem.
Qed.

Lemma ocr_space_invalid self input_type input_value o w :
  ¬ valid_arguments input_type o →
  ∃ e, e ∈ validation_errors o
       ∧ ocr_space self input_type input_value o w = (w, Raise e).
Proof.
  intros Hinv. unfold ocr_space, validation_errors.
  case_bool_decide as Hit; simpl; [|eexists; split; [|done]; list_mem].
  case_bool_decide as Hl; simpl; [|eexists; split; [|done]; list_mem].
  case_bool_decide as He; simpl; [|eexists; split; [|done]; list_mem].
  destruct (String.eqb_spec (language o) "auto") as [E|E]; simpl.
  - destruct (Z.eqb_spec (ocr_engine o) 2) as [E2|E2]; simpl;
      [|eexists; split; [|done]; list_mem].
    destruct Hinv. repeat split; try done; [|tauto].
    list_mem.
  - destruct Hinv. repeat split; try done; [|tauto].
    list_mem.
Qed.

Lemma try_reraise_result input_type input_value params w e :
  (try_except (dispatch input_type input_value params) reraise_logged w).2 = Raise e →
  strategy_exception e.
Proof.
  unfold try_except.
  destruct (dispatch input_type input_value params w) as [w' [a|e']] eqn:E;
    [done|].
  destruct (reraise_logged_raises e' w') as (w'' & -> & _). simpl.
  intros [= <-]. by eapply dispatch_raise.
Qed.

(** C1. [ocr_space] raises one of its four [ValueError]s, leaving the world
    (no request sent, nothing logged) as it was, exactly when the input
    kind is not url, file or base64, or the language is not in [LANGUAGES],
    or the engine is not 1 or 2, or the language is auto while the engine
    is not 2; with valid arguments it runs the selected strategy and none
    of these four errors comes out. *)
Theorem ocr_space_validation self input_type input_value o w :
  (¬ valid_arguments input_type o →
     ∃ e, e ∈ validation_errors o
          ∧ ocr_space self input_type input_value o w = (w, Raise e))
  ∧ (valid_arguments input_type o →
     ocr_space self input_type input_value o w
     = try_except (dispatch input_type input_value (request_params self o))
         reraise_logged w
     ∧ ∀ e, (ocr_space self input_type input_value o w).2 = Raise e →
            e ∉ validation_errors o).
Proof.
  split.
  - apply ocr_space_invalid.
  - intros Hv. split; [by apply ocr_space_valid|].
    intros e. rewrite (ocr_space_valid _ _ _ _ _ Hv).
    intros H%try_reraise_result. by apply strategy_exception_not_validation.
Qed.

Lemma ocr_space_validation_witness :
  (∃ e, e ∈ validation_errors
              {| language := "auto"; is_overlay_required := false;
                 filetype := None; detect_orientation := false;
                 is_create_searchable_pdf := false;
                 is_searchable_pdf_hide_text_layer := false; scale := false;
                 is_table := false; ocr_engine := 1 |}
        ∧ ocr_space client "url" "https://example.org/scan.png"
            {| language := "auto"; is_overlay_required := false;
               filetype := None; detect_orientation := false;
               is_create_searchable_pdf := false;
               is_searchable_pdf_hide_text_layer := false; scale := false;
               is_table := false; ocr_engine := 1 |} sample_world
          = (sample_world, Raise e))
  ∧ (∀ e, (ocr_space client "url" "https://example.org/scan.png"
             default_options sample_world).2 = Raise e →
          e ∉ validation_errors default_options).
Proof.
  split.
  - apply (proj1 (ocr_space_validation client "url"
                    "https://example.org/scan.png" _ sample_world)).
    intros (_ & _ & _ & Hauto). apply Hauto. split; [reflexivity|]. by vm_compute.
  - apply (proj2 (ocr_space_validation client "url"
                    "https://example.org/scan.png" default_options sample_world)).
    by_decide.
Defined.

(** *** Every strategy validates the response it receives *)

Lemma ocr_from_url_validates url params w resp v :
  remote w {| req_method := GET; req_url := GET_ENDPOINT;
              req_params := <["url" := url]> params; req_data := ∅;
              req_files := None; req_timeout := 60 |} = Response resp →
  status_ok resp = true → body_json resp = Some v →
  ∃ w', _ocr_from_url url params w = _process_response v w'
        ∧ files w' = files w
        ∧ length (requests_sent w') = S (length (requests_sent w)).
Proof.
  intros Hr Hs Hj. unfold _ocr_from_url, bind, logger, send, raise_for_status,
    json, mret. simpl. rewrite Hr, Hs. simpl. rewrite Hj. simpl.
  eexists. split; [done|]. simpl. split; [done|].
  rewrite length_app. simpl. lia.
Qed.

Lemma ocr_from_base64_validates payload params w resp v :
  String.prefix "data:" payload = true →
  remote w {| req_method := POST; req_url := POST_ENDPOINT; req_params := ∅;
              req_data := <["base64Image" := payload]> params;
              req_files := None; req_timeout := 120 |} = Response resp →
  status_ok resp = true → body_json resp = Some v →
  ∃ w', _ocr_from_base64 payload params w = _process_response v w'
        ∧ files w' = files w
        ∧ length (requests_sent w') = S (length (requests_sent w)).
Proof.
  intros Hp Hr Hs Hj. unfold _ocr_from_base64, bind, logger, send,
    raise_for_status, json, mret. rewrite Hp. simpl. rewrite Hr, Hs. simpl.
  rewrite Hj. simpl.
  eexists. split; [done|]. simpl. split; [done|].
  rewrite length_app. simpl. lia.
Qed.

Lemma ocr_from_file_validates file_path data params w resp v :
  files w !! file_path = Some (File data) →
  stat_error w file_path = false → readable w file_path = true →
  remote w {| req_method := POST; req_url := POST_ENDPOINT; req_params := ∅;
              req_data := params;
              req_files := Some (path_name file_path, data,
                                 _get_content_type (py_lower (path_suffix file_path)));
              req_timeout := 120 |} = Response resp →
  status_ok resp = true → body_json resp = Some v →
  ∃ w', _ocr_from_file file_path params w = _process_response v w'
        ∧ files w' = files w
        ∧ length (requests_sent w') = S (length (requests_sent w)).
Proof.
  intros Hf He Hrd Hr Hs Hj.
  unfold _ocr_from_file, bind, logger, send, path_exists,
    open_rb, raise_for_status, json, mret. rewrite He, Hf.
  rewrite bool_decide_eq_true_2 by eauto. cbn. rewrite Hf, Hrd. cbn.
  rewrite Hr, Hs. cbn. rewrite Hj. cbn.
  eexists. split; [done|]. simpl. split; [done|].
  rewrite length_app. simpl. lia.
Qed.

(** C2. On a decoded response [_process_response] raises exactly when the
    response is flagged [IsErroredOnProcessing] (the error carries
    [ErrorMessage] and [ErrorDetails]) or its [OCRExitCode] is 3 (all
    processing failed) or 4 (fatal error); otherwise it returns the
    response, and an exit code of 2 only adds a warning to the log. *)
Theorem process_response_errors (d : gmap string pyval) (w : world) :
  let r := _process_response (PDict d) w in
  (flagged d = true → r = (w, Raise (service_error d)))
  ∧ (flagged d = false → exit_code_is d 3 = true →
       r = (w, Raise all_failed_error))
  ∧ (flagged d = false → exit_code_is d 4 = true →
       r = (w, Raise fatal_error))
  ∧ (flagged d = false → exit_code_is d 3 = false → exit_code_is d 4 = false →
       r.2 = Return (PDict d)
       ∧ files r.1 = files w ∧ requests_sent r.1 = requests_sent w)
  ∧ (flagged d = false → exit_code_is d 2 = true →
       r.2 = Return (PDict d) ∧ partial_warning ∈ log r.1)
  ∧ ((∃ e, r.2 = Raise e) ↔
       flagged d = true ∨ exit_code_is d 3 = true ∨ exit_code_is d 4 = true).
Proof.
  cbv zeta. rewrite process_response_dict. unfold exit_code_is.
  split; [|split; [|split; [|split; [|split]]]].
  - by intros ->.
  - by intros -> ->.
  - intros -> H4. by rewrite (py_eq_int_distinct _ 4 3), H4.
  - intros -> -> ->. unfold bind, logger, mret.
    by destruct (py_eq_int _ 2).
  - intros -> H2.
    rewrite (py_eq_int_distinct _ 2 3), (py_eq_int_distinct _ 2 4), H2 by done.
    unfold bind, logger, mret, partial_warning. simpl. split; [done|].
    rewrite elem_of_app. left. rewrite elem_of_app. right. apply list_elem_of_here.
  - destruct (flagged d); [by split; eauto|].
    destruct (py_eq_int _ 3); [by split; eauto|].
    destruct (py_eq_int _ 4); [by split; eauto|].
    unfold bind, logger, mret. destruct (py_eq_int _ 2); simpl.
    + split; [by intros [? ?]|]. by intros [?|[?|?]].
    + split; [by intros [? ?]|]. by intros [?|[?|?]].
Qed.

Lemma process_response_errors_witness :
  _process_response
    (PDict (<["IsErroredOnProcessing" := PBool true]>
            (<["ErrorMessage" := PStr "Timed out"]> ∅))) sample_world
  = (sample_world,
     Raise (Exception_ [Lit "OCR processing error: "; Fmt (PStr "Timed out");
                        Lit ". Details: "; Fmt (PStr "")]))
  ∧ _process_response (PDict (<["OCRExitCode" := PInt 3]> ∅)) sample_world
    = (sample_world, Raise all_failed_error)
  ∧ _process_response (PDict (<["OCRExitCode" := PFloat 4%float]> ∅)) sample_world
    = (sample_world, Raise fatal_error)
  ∧ (_process_response (PDict (<["OCRExitCode" := PInt 2]> ∅)) sample_world).2
    = Return (PDict (<["OCRExitCode" := PInt 2]> ∅)).
Proof.
  split; [|split; [|split]].
  - exact (proj1 (process_response_errors
                    (<["IsErroredOnProcessing" := PBool true]>
                     (<["ErrorMessage" := PStr "Timed out"]> ∅)) sample_world)
             eq_refl).
  - exact (proj1 (proj2 (process_response_errors
                           (<["OCRExitCode" := PInt 3]> ∅) sample_world))
             eq_refl eq_refl).
  - exact (proj1 (proj2 (proj2 (process_response_errors
                                  (<["OCRExitCode" := PFloat 4%float]> ∅)
                                  sample_world)))
             eq_refl eq_refl).
  - exact (proj1 (proj1 (proj2 (proj2 (proj2 (proj2 (process_response_errors
                                  (<["OCRExitCode" := PInt 2]> ∅)
                                  sample_world)))))
                    eq_refl eq_refl)).
Defined.

(** *** Sample responses *)

Lemma parsed_pages_response_of pages :
  parsed_pages (response_of pages) = Some pages.
Proof.
  unfold parsed_pages, response_of. rewrite lookup_insert_eq.
  apply mapM_Some_2, Forall2_fmap_l, Forall_Forall2_diag, list.Forall_forall.
  by intros p _.
Qed.

Lemma text_pages_app pages1 pages2 :
  text_pages (pages1 ++ pages2) ↔ text_pages pages1 ∧ text_pages pages2.
Proof. apply Forall_app. Qed.

Lemma text_pages_cons p pages :
  text_pages (p :: pages) → text_pages pages.
Proof. unfold text_pages. by intros [_ ?]%Forall_cons. Qed.

(** ** The text view *)

(** C3 (amended). On a response whose pages are dictionaries and whose
    successful pages hold a string as [ParsedText], [extract_text] returns,
    in page order, the trimmed text of every successful page whose trimmed
    text is not empty, joined by a blank line; failed pages are skipped. *)
Theorem extract_text_joins_segments (d : gmap string pyval) pages :
  parsed_pages d = Some pages →
  text_pages pages →
  extract_text d = Return (String.concat blank_line (text_segments pages)).
Proof. apply extract_text_segments. Qed.

Lemma extract_text_joins_segments_witness :
  extract_text (response_of hello_world_pages)
  = Return ("Hello" +:+ blank_line +:+ "World").
Proof.
  apply (extract_text_joins_segments (response_of hello_world_pages)
           hello_world_pages).
  - reflexivity.
  - repeat (apply Forall_cons_2; [intros _; by eexists|]). apply Forall_nil_2.
Defined.

(** C3 as stated fails: a successful page that holds only whitespace is
    left out, where joining the text of every successful page would put
    an empty segment and a second separator. *)
Lemma extract_text_spec_counterexample :
  parsed_pages (response_of blank_between_pages) = Some blank_between_pages
  ∧ extract_text (response_of blank_between_pages)
    = Return ("Hello" +:+ blank_line +:+ "World")
  ∧ extract_text_spec blank_between_pages
    = "Hello" +:+ blank_line +:+ blank_line +:+ "World"
  ∧ extract_text (response_of blank_between_pages)
    ≠ Return (extract_text_spec blank_between_pages).
Proof. repeat split; try by vm_compute. Qed.

(** C10 (amended). Under the same shape, the list the loop of
    [extract_text] builds is the list of the trimmed texts of the
    successful pages that are not empty, and the returned string is that
    list joined by the separator. Its segments are all non-empty and free
    of surrounding whitespace, so the returned string neither begins nor
    ends with the separator, and between two successive separators of the
    join lies such a segment: no two of them are adjacent. A page that
    succeeded with empty or whitespace-only text changes nothing. *)
Theorem extract_text_no_empty_segment (d : gmap string pyval) pages :
  parsed_pages d = Some pages →
  text_pages pages →
  extract_text_loop (PDict <$> pages) [] = Return (text_segments pages)
  ∧ extract_text d = Return (String.concat blank_line (text_segments pages))
  ∧ Forall (λ t, t ≠ "" ∧ trimmed t) (text_segments pages)
  ∧ (∀ u, String.concat blank_line (text_segments pages) ≠ blank_line +:+ u)
  ∧ (∀ u, String.concat blank_line (text_segments pages) ≠ u +:+ blank_line)
  ∧ (∀ l1 t l2,
       text_segments pages = l1 ++ t :: l2 → l1 ≠ [] → l2 ≠ [] →
       (t ≠ "" ∧ trimmed t)
       ∧ String.concat blank_line (text_segments pages)
         = String.concat blank_line l1 +:+ blank_line +:+ t +:+ blank_line
           +:+ String.concat blank_line l2)
  ∧ (∀ pre p post,
       pages = pre ++ p :: post → page_trimmed p = "" →
       extract_text d = extract_text (response_of (pre ++ post))).
Proof.
  intros Hp Ht.
  pose proof (text_segments_trimmed pages) as Hseg.
  split; [by rewrite (extract_text_loop_segments _ _ Ht)|].
  split; [by apply extract_text_segments|].
  split; [done|].
  split; [intros u; by apply concat_not_prefixed|].
  split; [intros u; by apply concat_not_suffixed|].
  split.
  { intros l1 t l2 E H1 H2. rewrite E in Hseg |- *. split.
    - apply Forall_app in Hseg as [_ Hseg]. by apply Forall_cons in Hseg as [? _].
    - by apply concat_between. }
  intros pre p post -> Hblank.
  rewrite (extract_text_segments d _ Hp Ht).
  apply text_pages_app in Ht as [Hpre Hpost%text_pages_cons].
  rewrite (extract_text_segments _ _ (parsed_pages_response_of _))
    by by apply text_pages_app.
  rewrite !text_segments_app. by rewrite text_segments_skip by by right.
Qed.

Lemma extract_text_no_empty_segment_witness :
  extract_text_loop (PDict <$> blank_between_pages) []
  = Return (text_segments blank_between_pages)
  ∧ extract_text (response_of blank_between_pages)
    = Return (String.concat blank_line (text_segments blank_between_pages))
  ∧ Forall (λ t, t ≠ "" ∧ trimmed t) (text_segments blank_between_pages)
  ∧ (∀ u, String.concat blank_line (text_segments blank_between_pages)
          ≠ blank_line +:+ u)
  ∧ (∀ u, String.concat blank_line (text_segments blank_between_pages)
          ≠ u +:+ blank_line)
  ∧ (∀ l1 t l2,
       text_segments blank_between_pages = l1 ++ t :: l2 → l1 ≠ [] → l2 ≠ [] →
       (t ≠ "" ∧ trimmed t)
       ∧ String.concat blank_line (text_segments blank_between_pages)
         = String.concat blank_line l1 +:+ blank_line +:+ t +:+ blank_line
           +:+ String.concat blank_line l2)
  ∧ (∀ pre p post,
       blank_between_pages = pre ++ p :: post → page_trimmed p = "" →
       extract_text (response_of blank_between_pages)
       = extract_text (response_of (pre ++ post))).
Proof.
  apply (extract_text_no_empty_segment (response_of blank_between_pages)
           blank_between_pages).
  - reflexivity.
  - repeat (apply Forall_cons_2; [intros _; by eexists|]). apply Forall_nil_2.
Defined.

(** C10 as stated fails: the text of a single page can itself hold two
    blank lines in a row, and they reach the returned string unchanged. *)
Lemma consecutive_separators_counterexample :
  parsed_pages (response_of blank_lines_page) = Some blank_lines_page
  ∧ extract_text (response_of blank_lines_page)
    = Return ("a" +:+ blank_line +:+ blank_line +:+ "b")
  ∧ occurs (blank_line +:+ blank_line)
      ("a" +:+ blank_line +:+ blank_line +:+ "b") = true.
Proof. repeat split; by vm_compute. Qed.

(** ** The word view *)

Lemma no_overlay_page_overlay (p : gmap string pyval) :
  p !! "TextOverlay" = None → page_overlay p = Some [].
Proof.
  unfold page_overlay, page_lines. intros ->. by destruct (page_ok p).
Qed.

Lemma overlay_records_empty (lss : list (list (list (gmap string pyval)))) :
  Forall (λ ls, ls = []) lss → overlay_records lss = [].
Proof.
  intros H. apply elem_of_nil_inv. intros r.
  rewrite elem_of_overlay_records.
  intros (i & ls & j & ws & k & w & Hi & Hj & _).
  rewrite list.Forall_forall in H.
  rewrite (H ls) in Hj by (by eapply list_elem_of_lookup_2). done.
Qed.

Lemma extract_words_no_overlay (d : gmap string pyval) pages :
  parsed_pages d = Some pages →
  Forall (λ p, p !! "TextOverlay" = None) pages →
  extract_words_with_positions d = Return [].
Proof.
  intros Hp Hno.
  rewrite (extract_words_records d pages ((λ _, []) <$> pages) Hp).
  - f_equal. apply overlay_records_empty, Forall_fmap, list.Forall_forall.
    by intros p _.
  - apply mapM_Some_2, Forall2_fmap_r, Forall_Forall2_diag.
    eapply Forall_impl; [done|]. intros p. apply no_overlay_page_overlay.
Qed.

Lemma word_record_fields i j k (w : gmap string pyval) :
  word_record i j k w !! "text" = Some (default (PStr "") (w !! "WordText"))
  ∧ word_record i j k w !! "left" = Some (default (PInt 0) (w !! "Left"))
  ∧ word_record i j k w !! "top" = Some (default (PInt 0) (w !! "Top"))
  ∧ word_record i j k w !! "height" = Some (default (PInt 0) (w !! "Height"))
  ∧ word_record i j k w !! "width" = Some (default (PInt 0) (w !! "Width")).
Proof. unfold word_record, word_entry. repeat split; by simplify_map_eq. Qed.

(** C4. On a response whose pages are dictionaries, with the overlay of
    every successful page made of lists of dictionaries,
    [extract_words_with_positions] returns, page by page, line by line and
    word by word, one record per word with the 1-based page, line and word
    numbers, the word's text and its box, a missing field of the box being
    0; when no page has a [TextOverlay] it returns the empty list. *)
Theorem extract_words_emits_records (d : gmap string pyval) pages :
  parsed_pages d = Some pages →
  (∀ lss, mapM page_overlay pages = Some lss →
          extract_words_with_positions d = Return (overlay_records lss))
  ∧ (∀ i j k w,
       word_record i j k w !! "page" = Some (PInt (Z.of_nat i + 1))
       ∧ word_record i j k w !! "line" = Some (PInt (Z.of_nat j + 1))
       ∧ word_record i j k w !! "word_index" = Some (PInt (Z.of_nat k + 1))
       ∧ word_record i j k w !! "text" = Some (default (PStr "") (w !! "WordText"))
       ∧ word_record i j k w !! "left" = Some (default (PInt 0) (w !! "Left"))
       ∧ word_record i j k w !! "top" = Some (default (PInt 0) (w !! "Top"))
       ∧ word_record i j k w !! "height" = Some (default (PInt 0) (w !! "Height"))
       ∧ word_record i j k w !! "width" = Some (default (PInt 0) (w !! "Width")))
  ∧ (Forall (λ p, p !! "TextOverlay" = None) pages →
     extract_words_with_positions d = Return []).
Proof.
  intros Hp. split; [|split].
  - intros lss. by apply extract_words_records.
  - intros i j k w.
    split; [apply word_record_page|].
    split; [apply word_record_line|].
    split; [apply word_record_word_index|]. apply word_record_fields.
  - by apply extract_words_no_overlay.
Qed.

Lemma extract_words_emits_records_witness :
  extract_words_with_positions (response_of [overlay_page [two_words]])
  = Return
      [list_to_map
         [("page", PInt 1); ("line", PInt 1); ("word_index", PInt 1);
          ("text", PStr "Hello"); ("left", PInt 10); ("top", PInt 20);
          ("height", PInt 12); ("width", PInt 40)];
       list_to_map
         [("page", PInt 1); ("line", PInt 1); ("word_index", PInt 2);
          ("text", PStr "World"); ("left", PInt 55); ("top", PInt 20);
          ("height", PInt 12); ("width", PInt 42)]]
  ∧ extract_words_with_positions (response_of hello_world_pages) = Return [].
Proof.
  split.
  - exact (proj1 (extract_words_emits_records
                    (response_of [overlay_page [two_words]])
                    [overlay_page [two_words]] eq_refl)
             [[two_words]] eq_refl).
  - apply (proj2 (extract_words_emits_records
                    (response_of hello_world_pages) hello_world_pages eq_refl)).
    repeat (apply Forall_cons_2; [reflexivity|]). apply Forall_nil_2.
Defined.

(** C9. The [page] field of every record is one more than the position,
    in the whole [ParsedResults] list, of the page the word stands on: a
    failed page gives no record, and no record carries its number, yet it
    is counted. *)
Theorem extract_words_page_is_position (d : gmap string pyval) pages lss :
  parsed_pages d = Some pages →
  mapM page_overlay pages = Some lss →
  ∃ rs,
    extract_words_with_positions d = Return rs
    ∧ (∀ r, r ∈ rs ↔
         ∃ i p ls j ws k w,
           pages !! i = Some p ∧ page_ok p = true
           ∧ page_lines p = Some ls ∧ ls !! j = Some ws ∧ ws !! k = Some w
           ∧ r = word_record i j k w)
    ∧ (∀ i j k w, word_record i j k w !! "page" = Some (PInt (Z.of_nat i + 1)))
    ∧ (∀ i p, pages !! i = Some p → page_ok p = false →
         ∀ r, r ∈ rs → r !! "page" ≠ Some (PInt (Z.of_nat i + 1))).
Proof.
  intros Hp Ho. exists (overlay_records lss).
  split; [by apply extract_words_records with pages|].
  apply mapM_Some_1 in Ho.
  assert (∀ r, r ∈ overlay_records lss ↔
    ∃ i p ls j ws k w,
      pages !! i = Some p ∧ page_ok p = true
      ∧ page_lines p = Some ls ∧ ls !! j = Some ws ∧ ws !! k = Some w
      ∧ r = word_record i j k w) as Hchar.
  { intros r. rewrite elem_of_overlay_records. split.
    - intros (i & ls & j & ws & k & w & Hi & Hj & Hk & ->).
      destruct (Forall2_lookup_r _ _ _ _ _ Ho Hi) as (p & Hpi & Hov).
      unfold page_overlay in Hov. destruct (page_ok p) eqn:Hok.
      + by exists i, p, ls, j, ws, k, w.
      + injection Hov as <-. done.
    - intros (i & p & ls & j & ws & k & w & Hi & Hok & Hl & Hj & Hk & ->).
      destruct (Forall2_lookup_l _ _ _ _ _ Ho Hi) as (ls' & Hi' & Hov).
      unfold page_overlay in Hov. rewrite Hok, Hl in Hov. injection Hov as <-.
      by exists i, ls, j, ws, k, w. }
  split; [done|]. split; [apply word_record_page|].
  intros i p Hi Hfail r Hr. apply Hchar in Hr.
  destruct Hr as (i' & p' & ls & j & ws & k & w & Hi' & Hok & _ & _ & _ & ->).
  rewrite word_record_page. intros [= E].
  assert (i' = i) as -> by lia. congruence.
Qed.

Lemma extract_words_page_is_position_witness :
  ∃ rs,
    extract_words_with_positions
      (response_of [page 3 "unreadable"; overlay_page [two_words]]) = Return rs
    ∧ (∀ r, r ∈ rs ↔
         ∃ i p ls j ws k w,
           [page 3 "unreadable"; overlay_page [two_words]] !! i = Some p
           ∧ page_ok p = true
           ∧ page_lines p = Some ls ∧ ls !! j = Some ws ∧ ws !! k = Some w
           ∧ r = word_record i j k w)
    ∧ (∀ i j k w, word_record i j k w !! "page" = Some (PInt (Z.of_nat i + 1)))
    ∧ (∀ i p, [page 3 "unreadable"; overlay_page [two_words]] !! i = Some p →
         page_ok p = false →
         ∀ r, r ∈ rs → r !! "page" ≠ Some (PInt (Z.of_nat i + 1))).
Proof.
  apply (extract_words_page_is_position
           (response_of [page 3 "unreadable"; overlay_page [two_words]])
           [page 3 "unreadable"; overlay_page [two_words]]
           [[]; [two_words]]); reflexivity.
Defined.

(** ** The Base64 and file strategies *)

Lemma validation_errors_are_value_errors o e :
  e ∈ validation_errors o → ∃ msg, e = ValueError msg.
Proof.
  unfold validation_errors, input_type_error, language_error, engine_error,
    auto_engine_error.
  rewrite !elem_of_cons, elem_of_nil. intros [->|[->|[->|[->|[]]]]]; eauto.
Qed.

Lemma ocr_space_base64_raises self payload o w :
  String.prefix "data:" payload = false →
  valid_arguments "base64" o →
  requests_sent (ocr_space self "base64" payload o w).1 = requests_sent w
  ∧ files (ocr_space self "base64" payload o w).1 = files w
  ∧ (ocr_space self "base64" payload o w).2 = Raise base64_prefix_error.
Proof.
  intros Hpre Hv. rewrite (ocr_space_valid _ _ _ _ _ Hv).
  unfold try_except, dispatch, _ocr_from_base64. simpl. by rewrite Hpre.
Qed.

Lemma ocr_space_missing_file self file_path o w :
  files w !! file_path = None →
  stat_error w file_path = false →
  valid_arguments "file" o →
  requests_sent (ocr_space self "file" file_path o w).1 = requests_sent w
  ∧ files (ocr_space self "file" file_path o w).1 = files w
  ∧ (ocr_space self "file" file_path o w).2
    = Raise (FileNotFoundError [Lit "File not found: "; FmtPath file_path]).
Proof.
  intros Hnone He Hv. rewrite (ocr_space_valid _ _ _ _ _ Hv).
  unfold try_except, dispatch, _ocr_from_file, bind, path_exists. simpl.
  rewrite He, Hnone. rewrite bool_decide_eq_false_2 by (by intros [? ?]). done.
Qed.

Lemma ocr_space_stat_error self file_path o w :
  stat_error w file_path = true →
  valid_arguments "file" o →
  requests_sent (ocr_space self "file" file_path o w).1 = requests_sent w
  ∧ files (ocr_space self "file" file_path o w).1 = files w
  ∧ (ocr_space self "file" file_path o w).2 = Raise OSError.
Proof.
  intros He Hv. rewrite (ocr_space_valid _ _ _ _ _ Hv).
  unfold try_except, dispatch, _ocr_from_file, bind, path_exists. simpl.
  by rewrite He.
Qed.

(** C5 (amended). With the input kind base64 and a payload that does not
    begin with [data:], [ocr_space] raises a [ValueError] and sends no
    request; with valid arguments it is the error of the Base64
    strategy. *)
Theorem base64_without_data_prefix self payload o w :
  String.prefix "data:" payload = false →
  (∃ msg, (ocr_space self "base64" payload o w).2 = Raise (ValueError msg))
  ∧ requests_sent (ocr_space self "base64" payload o w).1 = requests_sent w
  ∧ (valid_arguments "base64" o →
     (ocr_space self "base64" payload o w).2 = Raise base64_prefix_error).
Proof.
  intros Hpre. destruct (decide (valid_arguments "base64" o)) as [Hv|Hv].
  - destruct (ocr_space_base64_raises self payload o w Hpre Hv) as (Hr & _ & He).
    split; [|done]. rewrite He. unfold base64_prefix_error. eauto.
  - destruct (ocr_space_invalid self "base64" payload o w Hv) as (e & He & ->).
    destruct (validation_errors_are_value_errors _ _ He) as [msg ->].
    split; [eauto|]. split; [done|]. by intros ?.
Qed.

Lemma base64_without_data_prefix_witness :
  (∃ msg, (ocr_space client "base64" "iVBORw0KGgo=" default_options sample_world).2
          = Raise (ValueError msg))
  ∧ requests_sent
      (ocr_space client "base64" "iVBORw0KGgo=" default_options sample_world).1
    = requests_sent sample_world
  ∧ (valid_arguments "base64" default_options →
     (ocr_space client "base64" "iVBORw0KGgo=" default_options sample_world).2
     = Raise base64_prefix_error).
Proof.
  apply (base64_without_data_prefix client "iVBORw0KGgo=" default_options
           sample_world).
  reflexivity.
Defined.

(** C5 as stated fails: a payload that begins with [data:] but has no
    [;base64,] after it passes the check and is sent to the service. *)
Lemma data_prefix_alone_counterexample :
  data_uri_payload "data:foo" = None
  ∧ valid_arguments "base64" default_options
  ∧ (ocr_space client "base64" "data:foo" default_options sample_world).2
    = Return (PDict (<["OCRExitCode" := PInt 1]> ∅))
  ∧ (λ q, (req_method q, req_url q, req_data q !! "base64Image"))
      <$> requests_sent
            (ocr_space client "base64" "data:foo" default_options sample_world).1
    = [(POST, POST_ENDPOINT, Some "data:foo")].
Proof.
  split; [reflexivity|]. split; [by_decide|].
  split; by vm_compute.
Qed.

Lemma ocr_space_missing_file_no_request self file_path o w :
  files w !! file_path = None →
  requests_sent (ocr_space self "file" file_path o w).1 = requests_sent w
  ∧ files (ocr_space self "file" file_path o w).1 = files w.
Proof.
  intros Hnone. destruct (decide (valid_arguments "file" o)) as [Hv|Hv].
  - destruct (stat_error w file_path) eqn:He.
    + by destruct (ocr_space_stat_error self file_path o w He Hv) as (? & ? & _).
    + by destruct (ocr_space_missing_file self file_path o w Hnone He Hv)
        as (? & ? & _).
  - by destruct (ocr_space_invalid self "file" file_path o w Hv) as (e & _ & ->).
Qed.

(** C6 (amended). With the input kind file and a path that does not
    exist, [ocr_space] sends no request and touches no file. With options
    that pass the validation it raises [FileNotFoundError] when the
    existence check answers that the path is missing, and the [OSError] of
    the check when the check itself fails (a name that is too long,
    say). *)
Theorem missing_file_raises_not_found self file_path o w :
  files w !! file_path = None →
  (valid_arguments "file" o → stat_error w file_path = false →
     (ocr_space self "file" file_path o w).2
     = Raise (FileNotFoundError [Lit "File not found: "; FmtPath file_path]))
  ∧ (valid_arguments "file" o → stat_error w file_path = true →
     (ocr_space self "file" file_path o w).2 = Raise OSError)
  ∧ requests_sent (ocr_space self "file" file_path o w).1 = requests_sent w
  ∧ files (ocr_space self "file" file_path o w).1 = files w.
Proof.
  intros Hnone. split; [|split; [|by apply ocr_space_missing_file_no_request]].
  - intros Hv He.
    by destruct (ocr_space_missing_file self file_path o w Hnone He Hv)
      as (_ & _ & ?).
  - intros Hv He.
    by destruct (ocr_space_stat_error self file_path o w He Hv) as (_ & _ & ?).
Qed.

Lemma missing_file_raises_not_found_witness :
  ((ocr_space client "file" "missing.jpg" default_options sample_world).2
   = Raise (FileNotFoundError [Lit "File not found: "; FmtPath "missing.jpg"])
   ∧ requests_sent
       (ocr_space client "file" "missing.jpg" default_options sample_world).1
     = requests_sent sample_world
   ∧ files (ocr_space client "file" "missing.jpg" default_options sample_world).1
     = files sample_world)
  ∧ (ocr_space client "file" long_name default_options guarded_world).2
    = Raise OSError.
Proof.
  split.
  - destruct (missing_file_raises_not_found client "missing.jpg" default_options
                sample_world) as (Hraise & _ & Hsent & Hfiles).
    + reflexivity.
    + split; [|by split]. apply Hraise; [by_decide|reflexivity].
  - destruct (missing_file_raises_not_found client long_name default_options
                guarded_world) as (_ & Hraise & _).
    + by vm_compute.
    + apply Hraise; [by_decide|by vm_compute].
Defined.

(** C6 as stated fails: for a missing path whose name is too long for the
    file system the existence check raises, and what comes out of
    [ocr_space] is that [OSError], not [FileNotFoundError]. *)
Lemma missing_long_name_counterexample :
  files guarded_world !! long_name = None
  ∧ valid_arguments "file" default_options
  ∧ (ocr_space client "file" long_name default_options guarded_world).2
    = Raise OSError
  ∧ (ocr_space client "file" long_name default_options guarded_world).2
    ≠ Raise (FileNotFoundError [Lit "File not found: "; FmtPath long_name]).
Proof.
  split; [by vm_compute|]. split; [by_decide|].
  assert ((ocr_space client "file" long_name default_options guarded_world).2
          = Raise OSError) as H by (by vm_compute).
  split; [done|]. by rewrite H.
Qed.

(** ** Downloading the searchable PDF *)

Ltac run_download :=
  unfold download_searchable_pdf, try_except, bind, logger, fetch, send,
    raise_for_status, open_wb, file_write, put_file, raise, mret in *;
  simpl in *.

Lemma download_no_url (d : gmap string pyval) out w :
  py_truthy (default PNone (d !! "SearchablePDFURL")) = false →
  (download_searchable_pdf d out w).2 = Return false
  ∧ files (download_searchable_pdf d out w).1 = files w
  ∧ requests_sent (download_searchable_pdf d out w).1 = requests_sent w.
Proof. intros H. run_download. by rewrite H. Qed.

Lemma download_success (d : gmap string pyval) out w u resp :
  d !! "SearchablePDFURL" = Some (PStr u) → u ≠ "" →
  remote w (pdf_request u) = Response resp →
  status_ok resp = true → writable w out = true →
  write_fails w out (content resp) = None →
  (download_searchable_pdf d out w).2 = Return true
  ∧ files (download_searchable_pdf d out w).1
    = <[out := File (content resp)]> (files w)
  ∧ requests_sent (download_searchable_pdf d out w).1
    = requests_sent w ++ [pdf_request u].
Proof.
  intros Hd Hu Hr Hs Hw Hf. run_download. rewrite Hd. simpl.
  destruct (String.eqb_spec u "") as [|_]; [done|]. simpl.
  rewrite Hr, Hs. simpl. rewrite Hw. simpl. rewrite Hf. simpl.
  by rewrite insert_insert_eq.
Qed.

Lemma download_write_fails (d : gmap string pyval) out w u resp n :
  d !! "SearchablePDFURL" = Some (PStr u) → u ≠ "" →
  remote w (pdf_request u) = Response resp →
  status_ok resp = true → writable w out = true →
  write_fails w out (content resp) = Some n →
  (download_searchable_pdf d out w).2 = Return false
  ∧ files (download_searchable_pdf d out w).1
    = <[out := File (take n (content resp))]> (files w).
Proof.
  intros Hd Hu Hr Hs Hw Hf. run_download. rewrite Hd. simpl.
  destruct (String.eqb_spec u "") as [|_]; [done|]. simpl.
  rewrite Hr, Hs. simpl. rewrite Hw. simpl. rewrite Hf. simpl.
  by rewrite insert_insert_eq.
Qed.

Lemma download_true_inv (d : gmap string pyval) out w :
  (download_searchable_pdf d out w).2 = Return true →
  ∃ u resp,
    d !! "SearchablePDFURL" = Some (PStr u) ∧ u ≠ ""
    ∧ remote w (pdf_request u) = Response resp
    ∧ status_ok resp = true ∧ writable w out = true
    ∧ write_fails w out (content resp) = None.
Proof.
  run_download.
  destruct (d !! "SearchablePDFURL") as [[| | | |u| |]|] eqn:Hd; simpl;
    repeat case_match; simplify_eq/=; try done.
  intros _. exists u. eexists. repeat split; try done.
  intros ->. done.
Qed.

Lemma download_false_files (d : gmap string pyval) out w :
  (download_searchable_pdf d out w).2 = Return false →
  files (download_searchable_pdf d out w).1 = files w
  ∨ ∃ u resp n,
      d !! "SearchablePDFURL" = Some (PStr u)
      ∧ remote w (pdf_request u) = Response resp
      ∧ status_ok resp = true ∧ writable w out = true
      ∧ write_fails w out (content resp) = Some n
      ∧ files (download_searchable_pdf d out w).1
        = <[out := File (take n (content resp))]> (files w).
Proof.
  run_download.
  destruct (d !! "SearchablePDFURL") as [[| | | |u| |]|] eqn:Hd; simpl;
    repeat case_match; simplify_eq/=; try done; try (by left).
  intros _. right. eexists _, _, _.
  do 5 (split; [done|]). by rewrite insert_insert_eq.
Qed.

Lemma download_returns (d : gmap string pyval) out w :
  ∃ b, (download_searchable_pdf d out w).2 = Return b.
Proof.
  run_download.
  destruct (d !! "SearchablePDFURL") as [[| | | |u| |]|] eqn:Hd; simpl;
    repeat case_match; simplify_eq/=; eauto.
Qed.

(** C7. [download_searchable_pdf] never raises. Without a
    [SearchablePDFURL] in the response it returns [False], writes no file
    and sends no request. It returns [True] exactly when the URL is a
    non-empty string, the fetch answers with a good status, the file can
    be opened for writing and the write goes through; the file then holds
    the fetched bytes. When it returns [False] the files are as they were,
    unless the file was opened and the write then failed: the destination
    holds the bytes that were written before the failure. *)
Theorem download_searchable_pdf_result (d : gmap string pyval) out w :
  (∃ b, (download_searchable_pdf d out w).2 = Return b)
  ∧ (d !! "SearchablePDFURL" = None →
       (download_searchable_pdf d out w).2 = Return false
       ∧ files (download_searchable_pdf d out w).1 = files w
       ∧ requests_sent (download_searchable_pdf d out w).1 = requests_sent w)
  ∧ ((download_searchable_pdf d out w).2 = Return true ↔
       ∃ u resp,
         d !! "SearchablePDFURL" = Some (PStr u) ∧ u ≠ ""
         ∧ remote w (pdf_request u) = Response resp
         ∧ status_ok resp = true ∧ writable w out = true
         ∧ write_fails w out (content resp) = None)
  ∧ (∀ u resp,
       d !! "SearchablePDFURL" = Some (PStr u) →
       remote w (pdf_request u) = Response resp →
       (download_searchable_pdf d out w).2 = Return true →
       files (download_searchable_pdf d out w).1
       = <[out := File (content resp)]> (files w))
  ∧ ((download_searchable_pdf d out w).2 = Return false →
       files (download_searchable_pdf d out w).1 = files w
       ∨ ∃ u resp n,
           d !! "SearchablePDFURL" = Some (PStr u)
           ∧ remote w (pdf_request u) = Response resp
           ∧ status_ok resp = true ∧ writable w out = true
           ∧ write_fails w out (content resp) = Some n
           ∧ files (download_searchable_pdf d out w).1
             = <[out := File (take n (content resp))]> (files w))
  ∧ (∀ u resp n,
       d !! "SearchablePDFURL" = Some (PStr u) → u ≠ "" →
       remote w (pdf_request u) = Response resp →
       status_ok resp = true → writable w out = true →
       write_fails w out (content resp) = Some n →
       (download_searchable_pdf d out w).2 = Return false
       ∧ files (download_searchable_pdf d out w).1
         = <[out := File (take n (content resp))]> (files w)).
Proof.
  split; [apply download_returns|].
  split; [intros Hd; apply download_no_url; by rewrite Hd|].
  split; [split|split; [|split]].
  - apply download_true_inv.
  - intros (u & resp & Hd & Hu & Hr & Hs & Hw & Hf).
    by destruct (download_success d out w u resp) as (? & _).
  - intros u resp Hd Hr Ht.
    destruct (download_true_inv _ _ _ Ht)
      as (u' & resp' & Hd' & Hu & Hr' & Hs & Hw & Hf).
    assert (u' = u) as -> by congruence.
    assert (resp' = resp) as -> by congruence.
    by destruct (download_success d out w u resp) as (_ & ? & _).
  - apply download_false_files.
  - intros u resp n. apply download_write_fails.
Qed.

Lemma download_searchable_pdf_result_witness :
  ((download_searchable_pdf ∅ "out.pdf" sample_world).2 = Return false
   ∧ files (download_searchable_pdf ∅ "out.pdf" sample_world).1
     = files sample_world
   ∧ requests_sent (download_searchable_pdf ∅ "out.pdf" sample_world).1
     = requests_sent sample_world)
  ∧ (download_searchable_pdf
       (<["SearchablePDFURL" := PStr "https://api.ocr.space/pdf/1"]> ∅)
       "out.pdf" sample_world).2 = Return true
  ∧ ((download_searchable_pdf
        (<["SearchablePDFURL" := PStr "https://api.ocr.space/pdf/1"]> ∅)
        "full.pdf" guarded_world).2 = Return false
     ∧ files (download_searchable_pdf
                (<["SearchablePDFURL" := PStr "https://api.ocr.space/pdf/1"]> ∅)
                "full.pdf" guarded_world).1
       = <["full.pdf" := File (take 0 (content (answer 1)))]>
           (files guarded_world)).
Proof.
  split; [|split].
  - apply (proj1 (proj2 (download_searchable_pdf_result ∅ "out.pdf" sample_world))).
    reflexivity.
  - apply (proj2 (proj1 (proj2 (proj2 (download_searchable_pdf_result
             (<["SearchablePDFURL" := PStr "https://api.ocr.space/pdf/1"]> ∅)
             "out.pdf" sample_world))))).
    exists "https://api.ocr.space/pdf/1", (answer 1).
    repeat split; try reflexivity. by_decide.
  - apply (proj2 (proj2 (proj2 (proj2 (proj2 (download_searchable_pdf_result
             (<["SearchablePDFURL" := PStr "https://api.ocr.space/pdf/1"]> ∅)
             "full.pdf" guarded_world))))) "https://api.ocr.space/pdf/1");
      try reflexivity. by_decide.
Defined.

(** ** Base64 *)

Lemma b64_sextet_char (s : sextet) : b64_sextet (b64_char s) = Some s.
Proof.
  destruct s as [[[[[[] []] []] []] []] []]; reflexivity.
Qed.

Lemma b64_char_not_pad (s : sextet) : Ascii.eqb (b64_char s) pad = false.
Proof.
  destruct s as [[[[[[] []] []] []] []] []]; reflexivity.
Qed.

Lemma bytes_ind3 (P : list Byte.byte → Prop) :
  P [] → (∀ a, P [a]) → (∀ a b, P [a; b]) →
  (∀ a b c l, P l → P (a :: b :: c :: l)) →
  ∀ l, P l.
Proof.
  intros H0 H1 H2 H3 l.
  assert (P l ∧ (∀ a, P (a :: l)) ∧ (∀ a b, P (a :: b :: l))) as [? _].
  { induction l as [|x l (IH0 & IH1 & IH2)]; [by auto|].
    split; [apply IH1|]. split; [intros a; apply IH2|]. intros a b. by apply H3. }
  done.
Qed.

Lemma b64decode_group (s0 s1 s2 s3 : sextet) rest :
  b64decode_chars (b64_char s0 :: b64_char s1 :: b64_char s2 :: b64_char s3 :: rest)
  = (let '(a7, a6, a5, a4, a3, a2) := s0 in
     let '(a1, a0, b7, b6, b5, b4) := s1 in
     let '(b3, b2, b1, b0, c7, c6) := s2 in
     let '(c5, c4, c3, c2, c1, c0) := s3 in
     tail ← b64decode_chars rest;
     Some (Byte.of_bits (a0, (a1, (a2, (a3, (a4, (a5, (a6, a7)))))))
           :: Byte.of_bits (b0, (b1, (b2, (b3, (b4, (b5, (b6, b7)))))))
           :: Byte.of_bits (c0, (c1, (c2, (c3, (c4, (c5, (c6, c7)))))))
           :: tail)).
Proof.
  cbn [b64decode_chars]. rewrite !b64_sextet_char, b64_char_not_pad.
  destruct s0 as [[[[[??]?]?]?]?], s1 as [[[[[??]?]?]?]?],
    s2 as [[[[[??]?]?]?]?], s3 as [[[[[??]?]?]?]?].
  reflexivity.
Qed.

Lemma b64decode_group2 (s0 s1 s2 : sextet) :
  b64decode_chars [b64_char s0; b64_char s1; b64_char s2; pad]
  = (let '(a7, a6, a5, a4, a3, a2) := s0 in
     let '(a1, a0, b7, b6, b5, b4) := s1 in
     let '(b3, b2, b1, b0, _, _) := s2 in
     Some [Byte.of_bits (a0, (a1, (a2, (a3, (a4, (a5, (a6, a7)))))));
           Byte.of_bits (b0, (b1, (b2, (b3, (b4, (b5, (b6, b7)))))))]).
Proof.
  cbn [b64decode_chars]. rewrite !b64_sextet_char, b64_char_not_pad.
  destruct s0 as [[[[[??]?]?]?]?], s1 as [[[[[??]?]?]?]?],
    s2 as [[[[[??]?]?]?]?].
  reflexivity.
Qed.

Lemma b64decode_group1 (s0 s1 : sextet) :
  b64decode_chars [b64_char s0; b64_char s1; pad; pad]
  = (let '(a7, a6, a5, a4, a3, a2) := s0 in
     let '(a1, a0, _, _, _, _) := s1 in
     Some [Byte.of_bits (a0, (a1, (a2, (a3, (a4, (a5, (a6, a7)))))))]).
Proof.
  cbn [b64decode_chars]. rewrite !b64_sextet_char.
  destruct s0 as [[[[[??]?]?]?]?], s1 as [[[[[??]?]?]?]?].
  reflexivity.
Qed.

Lemma b64decode_encode_chars (data : list Byte.byte) :
  b64decode_chars (b64encode_chars data) = Some data.
Proof.
  induction data as [|a|a b|a b c rest IH] using bytes_ind3.
  - done.
  - cbn [b64encode_chars].
    destruct (Byte.to_bits a) as (a0&a1&a2&a3&a4&a5&a6&a7) eqn:Ea.
    rewrite b64decode_group1, <- Ea. by rewrite Byte.of_bits_to_bits.
  - cbn [b64encode_chars].
    destruct (Byte.to_bits a) as (a0&a1&a2&a3&a4&a5&a6&a7) eqn:Ea.
    destruct (Byte.to_bits b) as (b0&b1&b2&b3&b4&b5&b6&b7) eqn:Eb.
    rewrite b64decode_group2, <- Ea, <- Eb. by rewrite !Byte.of_bits_to_bits.
  - cbn [b64encode_chars].
    destruct (Byte.to_bits a) as (a0&a1&a2&a3&a4&a5&a6&a7) eqn:Ea.
    destruct (Byte.to_bits b) as (b0&b1&b2&b3&b4&b5&b6&b7) eqn:Eb.
    destruct (Byte.to_bits c) as (c0&c1&c2&c3&c4&c5&c6&c7) eqn:Ec.
    rewrite b64decode_group, IH, <- Ea, <- Eb, <- Ec.
    by rewrite !Byte.of_bits_to_bits.
Qed.

Lemma b64decode_encode (data : list Byte.byte) :
  b64decode (b64encode data) = Some data.
Proof.
  unfold b64decode, b64encode.
  by rewrite list_ascii_of_string_of_list_ascii, b64decode_encode_chars.
Qed.

Lemma mime_type_cases (extension : string) :
  default "image/jpeg" (mime_types !! extension)
  ∈ ["image/jpeg"; "image/png"; "image/gif"; "image/webp"; "image/tiff"].
Proof.
  destruct (mime_types !! extension) as [m|] eqn:E; simpl;
    [|apply list_elem_of_here].
  apply elem_of_list_to_map_2 in E.
  rewrite !elem_of_cons, elem_of_nil in E. rewrite !elem_of_cons.
  intuition (simplify_eq; auto 10).
Qed.

Lemma data_uri_payload_mime (mime payload : string) :
  mime ∈ ["image/jpeg"; "image/png"; "image/gif"; "image/webp"; "image/tiff"] →
  data_uri_payload ("data:" +:+ mime +:+ ";base64," +:+ payload) = Some payload.
Proof.
  rewrite !elem_of_cons, elem_of_nil.
  intros [->|[->|[->|[->|[->|[]]]]]]; reflexivity.
Qed.

(** C8. For a path that denotes a file which can be read,
    [image_to_base64] returns [data:<mime>;base64,] followed by the Base64
    text of the file's bytes, and taking that prefix off and decoding the
    rest gives the bytes back. *)
Theorem image_to_base64_roundtrip image_path (data : list Byte.byte) w :
  files w !! image_path = Some (File data) →
  stat_error w image_path = false →
  readable w image_path = true →
  ∃ uri mime,
    image_to_base64 image_path w = (w, Return uri)
    ∧ uri = "data:" +:+ mime +:+ ";base64," +:+ b64encode data
    ∧ (payload ← data_uri_payload uri; b64decode payload) = Some data.
Proof.
  intros Hf He Hrd.
  exists ("data:" +:+ default "image/jpeg"
                       (mime_types !! py_lower (path_suffix image_path))
          +:+ ";base64," +:+ b64encode data),
    (default "image/jpeg" (mime_types !! py_lower (path_suffix image_path))).
  split; [|split; [done|]].
  - unfold image_to_base64, bind, path_exists, open_rb, mret. simpl.
    rewrite He, Hf. rewrite bool_decide_eq_true_2 by eauto. simpl.
    by rewrite Hf, Hrd.
  - rewrite data_uri_payload_mime by apply mime_type_cases. simpl.
    apply b64decode_encode.
Qed.

Lemma image_to_base64_roundtrip_witness :
  ∃ uri mime,
    image_to_base64 "scan.png" sample_world = (sample_world, Return uri)
    ∧ uri = "data:" +:+ mime +:+ ";base64," +:+ b64encode [x89; x50; x4e; x47]
    ∧ (payload ← data_uri_payload uri; b64decode payload)
      = Some [x89; x50; x4e; x47].
Proof.
  apply (image_to_base64_roundtrip "scan.png" [x89; x50; x4e; x47] sample_world);
    reflexivity.
Defined.

(** * More of the module *)

(** ** One exchange with the service *)

Lemma quiet_step_refl w : quiet_step w w [].
Proof.
  unfold quiet_step. rewrite app_nil_r. repeat split; try done.
  exists []. by rewrite app_nil_r.
Qed.

Lemma quiet_step_trans w w1 w2 reqs1 reqs2 :
  quiet_step w w1 reqs1 → quiet_step w1 w2 reqs2 →
  quiet_step w w2 (reqs1 ++ reqs2).
Proof.
  intros (Hf1 & Hw1 & Hr1 & Hs1 & l1 & Hl1 & Hq1)
    (Hf2 & Hw2 & Hr2 & Hs2 & l2 & Hl2 & Hq2).
  unfold quiet_step. rewrite Hf2, Hw2, Hr2, Hs2, Hs1, Hl2, Hl1.
  rewrite !app_assoc. repeat split; try done.
  exists (l1 ++ l2). rewrite app_assoc. split; [done|]. by apply Forall_app.
Qed.

Lemma logger_quiet lvl msg w :
  lvl ≠ ERROR → quiet_step w (logger lvl msg w).1 [].
Proof.
  intros H. unfold quiet_step, logger. simpl. rewrite app_nil_r.
  repeat split; try done. eexists. split; [done|]. by apply Forall_singleton.
Qed.

Lemma process_response_quiet v w :
  quiet_step w (_process_response v w).1 [].
Proof.
  destruct v as [| | | | | |d]; try apply quiet_step_refl.
  rewrite process_response_dict.
  destruct (flagged d); [apply quiet_step_refl|].
  destruct (exit_code_is d 3); [apply quiet_step_refl|].
  destruct (exit_code_is d 4); [apply quiet_step_refl|].
  unfold bind, logger, mret, quiet_step.
  destruct (exit_code_is d 2); simpl; rewrite app_nil_r;
    repeat split; try done.
  - eexists. rewrite <- app_assoc. split; [done|].
    by repeat apply Forall_cons_2.
  - eexists. split; [done|]. by repeat apply Forall_cons_2.
Qed.

Lemma process_response_result v w :
  (_process_response v w).2
  = reply_result (Response {| status_ok := true; body_json := Some v;
                              content := [] |}).
Proof.
  destruct v as [| | | | | |d]; try done.
  rewrite process_response_dict. simpl.
  destruct (flagged d); [done|].
  destruct (exit_code_is d 3); [done|].
  destruct (exit_code_is d 4); [done|].
  unfold bind, logger, mret. by destruct (exit_code_is d 2).
Qed.

Lemma exchange_run req w :
  (exchange req w).2 = reply_result (remote w req)
  ∧ quiet_step w (exchange req w).1 [req].
Proof.
  unfold exchange, bind, send, raise_for_status, json.
  set (w1 := {| files := files w; writable := writable w;
                stat_error := stat_error w; readable := readable w;
                write_fails := write_fails w; remote := remote w;
                requests_sent := requests_sent w ++ [req]; log := log w |}).
  assert (quiet_step w w1 [req]) as Hw1.
  { unfold quiet_step. simpl. repeat split; try done.
    exists []. by rewrite app_nil_r. }
  destruct (remote w req) as [|resp]; [done|]. simpl.
  destruct (status_ok resp); [|done]. simpl.
  destruct (body_json resp) as [v|]; [|done]. simpl.
  pose proof (process_response_quiet v w1) as Hq.
  pose proof (process_response_result v w1) as Hr.
  destruct (_process_response v w1) as [w2 r]. simpl in *. split.
  - rewrite Hr. by destruct v.
  - rewrite <- (app_nil_r [req]). by eapply quiet_step_trans.
Qed.

Lemma logged_exchange_run msg req w :
  ((logger INFO msg;; exchange req) w).2 = reply_result (remote w req)
  ∧ quiet_step w ((logger INFO msg;; exchange req) w).1 [req].
Proof.
  unfold bind.
  pose proof (logger_quiet INFO msg w ltac:(done)) as Hl.
  destruct (logger INFO msg w) as [w0 [[]|e]] eqn:E; [|discriminate E].
  destruct (exchange_run req w0) as [Hr Hq]. simpl in Hl.
  pose proof Hl as (_ & _ & Hrem & _). split.
  - rewrite Hr. by rewrite Hrem.
  - change [req] with ([] ++ [req]).
    eapply quiet_step_trans; [exact Hl|exact Hq].
Qed.

(** The [try] of [ocr_space]: the result of the body, and one error record
    at the end of the log when the body raised. *)
Lemma try_reraise_run (m : M pyval) w :
  (try_except m reraise_logged w).2 = (m w).2
  ∧ files (try_except m reraise_logged w).1 = files (m w).1
  ∧ writable (try_except m reraise_logged w).1 = writable (m w).1
  ∧ remote (try_except m reraise_logged w).1 = remote (m w).1
  ∧ requests_sent (try_except m reraise_logged w).1 = requests_sent (m w).1
  ∧ log (try_except m reraise_logged w).1
    = log (m w).1 ++ match (m w).2 with
                     | Raise e => [error_record e]
                     | Return _ => []
                     end.
Proof.
  unfold try_except. destruct (m w) as [w' [v|e]]; simpl.
  - by rewrite app_nil_r.
  - unfold reraise_logged, error_record, bind, logger, raise.
    by destruct (is_request_exception e).
Qed.

(** ** One call of [ocr_space], by input kind *)

Lemma try_reraise_call (m : M pyval) w reqs :
  quiet_step w (m w).1 reqs →
  (try_except m reraise_logged w).2 = (m w).2
  ∧ call_step w (try_except m reraise_logged w).1 reqs
      (try_except m reraise_logged w).2.
Proof.
  intros (Hf & Hw & Hr & Hs & l & Hl & Hq).
  destruct (try_reraise_run m w) as (H2 & Hf' & Hw' & Hr' & Hs' & Hl').
  split; [done|]. unfold call_step.
  rewrite Hf', Hw', Hr', Hs', Hl', H2, Hl, <- app_assoc.
  repeat split; try done. by exists l.
Qed.

Lemma ocr_space_url_run self url o w :
  valid_arguments "url" o →
  (ocr_space self "url" url o w).2
  = reply_result (remote w (url_request url (request_params self o)))
  ∧ call_step w (ocr_space self "url" url o w).1
      [url_request url (request_params self o)]
      (ocr_space self "url" url o w).2.
Proof.
  intros Hv. rewrite (ocr_space_valid _ _ _ _ _ Hv).
  change (dispatch "url" url (request_params self o))
    with (logger INFO (Msg [Lit "Processing OCR from URL: "; Fmt (PStr url)]);;
          exchange (url_request url (request_params self o))).
  match goal with |- context [try_except ?m _ _] =>
    destruct (logged_exchange_run
                (Msg [Lit "Processing OCR from URL: "; Fmt (PStr url)])
                (url_request url (request_params self o)) w) as [Hr Hq];
    destruct (try_reraise_call m w _ Hq) as [H2 Hc]
  end.
  split; [by rewrite H2|done].
Qed.

Lemma ocr_space_base64_run self payload o w :
  valid_arguments "base64" o →
  String.prefix "data:" payload = true →
  (ocr_space self "base64" payload o w).2
  = reply_result (remote w (base64_request payload (request_params self o)))
  ∧ call_step w (ocr_space self "base64" payload o w).1
      [base64_request payload (request_params self o)]
      (ocr_space self "base64" payload o w).2.
Proof.
  intros Hv Hp. rewrite (ocr_space_valid _ _ _ _ _ Hv).
  assert (dispatch "base64" payload (request_params self o)
          = (logger INFO (Msg [Lit "Processing OCR from base64 data"]);;
             exchange (base64_request payload (request_params self o)))) as ->.
  { unfold dispatch, _ocr_from_base64. simpl. by rewrite Hp. }
  match goal with |- context [try_except ?m _ _] =>
    destruct (logged_exchange_run
                (Msg [Lit "Processing OCR from base64 data"])
                (base64_request payload (request_params self o)) w) as [Hr Hq];
    destruct (try_reraise_call m w _ Hq) as [H2 Hc]
  end.
  split; [by rewrite H2|done].
Qed.

Lemma ocr_from_file_file file_path data params w :
  files w !! file_path = Some (File data) →
  stat_error w file_path = false →
  readable w file_path = true →
  _ocr_from_file file_path params w
  = (logger INFO
       (Msg [Lit "Processing OCR from file: "; FmtPath file_path; Lit " (";
             Fmt (PStr (_get_content_type (py_lower (path_suffix file_path))));
             Lit ")"]);;
     exchange (file_request file_path data params)) w.
Proof.
  intros Hf He Hrd. unfold _ocr_from_file, exchange, bind, path_exists, open_rb,
    logger. rewrite He, Hf. rewrite bool_decide_eq_true_2 by eauto. cbn.
  by rewrite Hf, Hrd.
Qed.

Lemma ocr_space_file_run self file_path data o w :
  valid_arguments "file" o →
  files w !! file_path = Some (File data) →
  stat_error w file_path = false →
  readable w file_path = true →
  (ocr_space self "file" file_path o w).2
  = reply_result (remote w (file_request file_path data (request_params self o)))
  ∧ call_step w (ocr_space self "file" file_path o w).1
      [file_request file_path data (request_params self o)]
      (ocr_space self "file" file_path o w).2.
Proof.
  intros Hv Hf He Hrd. rewrite (ocr_space_valid _ _ _ _ _ Hv).
  change (dispatch "file" file_path (request_params self o))
    with (_ocr_from_file file_path (request_params self o)).
  unfold try_except. rewrite (ocr_from_file_file _ _ _ _ Hf He Hrd).
  match goal with |- context [(logger INFO ?msg;; exchange ?req) w] =>
    destruct (logged_exchange_run msg req w) as [Hr Hq];
    destruct (try_reraise_call (logger INFO msg;; exchange req) w _ Hq)
      as [H2 Hc]
  end.
  unfold try_except in H2, Hc. split; [by rewrite H2|done].
Qed.

Lemma ocr_space_unreadable_run self file_path data o w :
  valid_arguments "file" o →
  files w !! file_path = Some (File data) →
  stat_error w file_path = false →
  readable w file_path = false →
  (ocr_space self "file" file_path o w).2 = Raise OSError
  ∧ call_step w (ocr_space self "file" file_path o w).1 []
      (ocr_space self "file" file_path o w).2.
Proof.
  intros Hv Hf He Hrd. rewrite (ocr_space_valid _ _ _ _ _ Hv).
  unfold try_except, dispatch, _ocr_from_file, bind, path_exists, open_rb,
    logger, call_step. simpl. rewrite He, Hf.
  rewrite bool_decide_eq_true_2 by eauto. cbn. rewrite Hf, Hrd. cbn.
  rewrite app_nil_r. repeat split; try done.
  eexists [_]. rewrite <- app_assoc. split; [|done]. by apply Forall_singleton.
Qed.

Lemma ocr_space_directory_run self file_path o w :
  valid_arguments "file" o →
  files w !! file_path = Some Dir →
  stat_error w file_path = false →
  (ocr_space self "file" file_path o w).2 = Raise OSError
  ∧ call_step w (ocr_space self "file" file_path o w).1 []
      (ocr_space self "file" file_path o w).2.
Proof.
  intros Hv Hf He. rewrite (ocr_space_valid _ _ _ _ _ Hv).
  unfold try_except, dispatch, _ocr_from_file, bind, path_exists, open_rb,
    logger, call_step. simpl. rewrite He, Hf.
  rewrite bool_decide_eq_true_2 by eauto. cbn. rewrite Hf. cbn.
  rewrite app_nil_r. repeat split; try done.
  eexists [_]. rewrite <- app_assoc. split; [|done]. by apply Forall_singleton.
Qed.

Lemma ocr_space_missing_run self file_path o w :
  valid_arguments "file" o →
  files w !! file_path = None →
  stat_error w file_path = false →
  call_step w (ocr_space self "file" file_path o w).1 []
    (ocr_space self "file" file_path o w).2.
Proof.
  intros Hv Hf He. rewrite (ocr_space_valid _ _ _ _ _ Hv).
  unfold try_except, dispatch, _ocr_from_file, bind, path_exists, call_step.
  simpl. rewrite He, Hf. rewrite bool_decide_eq_false_2 by (by intros [? ?]).
  cbn. rewrite app_nil_r. repeat split; try done. by exists [].
Qed.

Lemma ocr_space_stat_error_run self file_path o w :
  valid_arguments "file" o →
  stat_error w file_path = true →
  (ocr_space self "file" file_path o w).2 = Raise OSError
  ∧ call_step w (ocr_space self "file" file_path o w).1 []
      (ocr_space self "file" file_path o w).2.
Proof.
  intros Hv He. rewrite (ocr_space_valid _ _ _ _ _ Hv).
  unfold try_except, dispatch, _ocr_from_file, bind, path_exists, call_step.
  simpl. rewrite He. cbn. rewrite app_nil_r. repeat split; try done.
  by exists [].
Qed.

Lemma file_upload_cases w file_path :
  (∃ data, files w !! file_path = Some (File data)
           ∧ stat_error w file_path = false ∧ readable w file_path = true)
  ∨ (stat_error w file_path = true
     ∨ files w !! file_path = None
     ∨ files w !! file_path = Some Dir
     ∨ readable w file_path = false).
Proof.
  destruct (stat_error w file_path); [by right; left|].
  destruct (readable w file_path); [|by right; right; right; right].
  destruct (files w !! file_path) as [[data|]|]; [left; by exists data| |];
    right; tauto.
Qed.

(** A valid call with the input kind file that does not get as far as the
    upload raises and sends nothing. *)
Lemma ocr_space_file_stops self file_path o w :
  valid_arguments "file" o →
  stat_error w file_path = true
  ∨ files w !! file_path = None
  ∨ files w !! file_path = Some Dir
  ∨ readable w file_path = false →
  (∃ e, (ocr_space self "file" file_path o w).2 = Raise e)
  ∧ call_step w (ocr_space self "file" file_path o w).1 []
      (ocr_space self "file" file_path o w).2.
Proof.
  intros Hv H. destruct (stat_error w file_path) eqn:He.
  { destruct (ocr_space_stat_error_run self file_path o w Hv He) as [Hr Hc].
    split; [by eexists|done]. }
  destruct (files w !! file_path) as [[data|]|] eqn:Hf.
  - destruct (readable w file_path) eqn:Hrd.
    { by destruct H as [?|[?|[?|?]]]. }
    destruct (ocr_space_unreadable_run self file_path data o w Hv Hf He Hrd)
      as [Hr Hc].
    split; [by eexists|done].
  - destruct (ocr_space_directory_run self file_path o w Hv Hf He) as [Hr Hc].
    split; [by eexists|done].
  - destruct (ocr_space_missing_file self file_path o w Hf He Hv) as (_ & _ & Hr).
    split; [by eexists|]. by apply ocr_space_missing_run.
Qed.

Lemma ocr_space_no_prefix_run self payload o w :
  valid_arguments "base64" o →
  String.prefix "data:" payload = false →
  call_step w (ocr_space self "base64" payload o w).1 []
    (ocr_space self "base64" payload o w).2.
Proof.
  intros Hv Hp. rewrite (ocr_space_valid _ _ _ _ _ Hv).
  unfold try_except, dispatch, _ocr_from_base64, call_step. simpl.
  rewrite Hp. cbn. rewrite app_nil_r. repeat split; try done. by exists [].
Qed.

Lemma reply_result_return reply v :
  reply_result reply = Return v →
  ∃ resp d,
    reply = Response resp ∧ status_ok resp = true
    ∧ body_json resp = Some (PDict d) ∧ v = PDict d
    ∧ flagged d = false ∧ exit_code_is d 3 = false ∧ exit_code_is d 4 = false.
Proof.
  destruct reply as [|resp]; [done|]. simpl.
  destruct (status_ok resp) eqn:Hs; [|done].
  destruct (body_json resp) as [[| | | | | |d]|] eqn:Hb; try done.
  destruct (flagged d) eqn:Hf; [done|].
  destruct (exit_code_is d 3) eqn:H3; [done|].
  destruct (exit_code_is d 4) eqn:H4; [done|].
  intros [= <-]. by exists resp, d.
Qed.

Lemma kinds_cases (input_type : string) :
  input_type ∈ ["url"; "file"; "base64"] →
  input_type = "url" ∨ input_type = "file" ∨ input_type = "base64".
Proof. rewrite !elem_of_cons, elem_of_nil. tauto. Qed.

Lemma valid_kind input_type o :
  valid_arguments input_type o →
  input_type = "url" ∨ input_type = "file" ∨ input_type = "base64".
Proof. intros [H _]. by apply kinds_cases. Qed.

(** Every valid call, whatever the kind and the state of the disk. *)
Lemma ocr_space_valid_call self input_type input_value o w :
  valid_arguments input_type o →
  ∃ reqs,
    length reqs ≤ 1
    ∧ Forall (λ q, req_url q ∈ [GET_ENDPOINT; POST_ENDPOINT]) reqs
    ∧ call_step w (ocr_space self input_type input_value o w).1 reqs
        (ocr_space self input_type input_value o w).2.
Proof.
  intros Hv. destruct (valid_kind _ _ Hv) as [->|[->| ->]].
  - destruct (ocr_space_url_run self input_value o w Hv) as [_ Hc].
    eexists [_]. split; [done|]. split; [|done].
    apply Forall_singleton, list_elem_of_here.
  - destruct (file_upload_cases w input_value) as [(data & Hf & He & Hrd)|Hstop].
    + destruct (ocr_space_file_run self input_value data o w Hv Hf He Hrd)
        as [_ Hc].
      eexists [_]. split; [done|]. split; [|done].
      apply Forall_singleton. simpl. apply list_elem_of_further, list_elem_of_here.
    + destruct (ocr_space_file_stops self input_value o w Hv Hstop) as [_ Hc].
      exists []. split; [simpl; lia|]. by split.
  - destruct (String.prefix "data:" input_value) eqn:Hp.
    + destruct (ocr_space_base64_run self input_value o w Hv Hp) as [_ Hc].
      eexists [_]. split; [done|]. split; [|done].
      apply Forall_singleton. simpl. apply list_elem_of_further, list_elem_of_here.
    + exists []. split; [simpl; lia|]. split; [done|].
      by apply ocr_space_no_prefix_run.
Qed.

(** X1. A valid call with the input kind url sends exactly one request,
    the GET request built from the URL and the parameters, and what it
    returns or raises is decided by the reply alone: a transport failure,
    a bad status or a body that is not JSON raise [RequestException], a
    JSON body that is not an object raises [AttributeError], an object is
    validated and returned. *)
Theorem ocr_space_url_call self url o w :
  valid_arguments "url" o →
  (ocr_space self "url" url o w).2
  = reply_result (remote w (url_request url (request_params self o)))
  ∧ call_step w (ocr_space self "url" url o w).1
      [url_request url (request_params self o)]
      (ocr_space self "url" url o w).2.
Proof. apply ocr_space_url_run. Qed.

Lemma ocr_space_url_call_witness :
  (ocr_space client "url" "https://example.org/scan.png" default_options
     offline_world).2 = Raise RequestException
  ∧ (ocr_space client "url" "https://example.org/scan.png" default_options
       sample_world).2 = Return (PDict (<["OCRExitCode" := PInt 1]> ∅)).
Proof.
  split.
  - exact (proj1 (ocr_space_url_call client "https://example.org/scan.png"
                    default_options offline_world
                    ltac:(by_decide))).
  - exact (proj1 (ocr_space_url_call client "https://example.org/scan.png"
                    default_options sample_world
                    ltac:(by_decide))).
Defined.

(** X2. A valid call with the input kind file on a path the existence
    check finds: when the path denotes a file that can be read, the bytes
    on disk are uploaded in one POST request, under the name of the last
    path component and the content type of the lower-cased extension, and
    the reply decides the result; a file that cannot be opened, and a
    directory, raise [OSError] and nothing is sent. *)
Theorem ocr_space_file_call self file_path node o w :
  valid_arguments "file" o →
  files w !! file_path = Some node →
  stat_error w file_path = false →
  match node with
  | File data =>
      if readable w file_path then
        (ocr_space self "file" file_path o w).2
        = reply_result
            (remote w (file_request file_path data (request_params self o)))
        ∧ call_step w (ocr_space self "file" file_path o w).1
            [file_request file_path data (request_params self o)]
            (ocr_space self "file" file_path o w).2
      else
        (ocr_space self "file" file_path o w).2 = Raise OSError
        ∧ call_step w (ocr_space self "file" file_path o w).1 []
            (ocr_space self "file" file_path o w).2
  | Dir =>
      (ocr_space self "file" file_path o w).2 = Raise OSError
      ∧ call_step w (ocr_space self "file" file_path o w).1 []
          (ocr_space self "file" file_path o w).2
  end.
Proof.
  intros Hv Hf He. destruct node as [data|].
  - destruct (readable w file_path) eqn:Hrd.
    + by apply ocr_space_file_run.
    + by eapply ocr_space_unreadable_run.
  - by apply ocr_space_directory_run.
Qed.

Lemma ocr_space_file_call_witness :
  ((ocr_space client "file" "scan.png" default_options sample_world).2
   = Return (PDict (<["OCRExitCode" := PInt 1]> ∅))
   ∧ (λ q, (req_method q, req_url q, req_files q))
       <$> requests_sent
             (ocr_space client "file" "scan.png" default_options sample_world).1
     = [(POST, POST_ENDPOINT,
         Some ("scan.png", [x89; x50; x4e; x47], "image/png"))])
  ∧ (ocr_space client "file" "scans" default_options offline_world).2
    = Raise OSError
  ∧ ((ocr_space client "file" "locked.png" default_options guarded_world).2
     = Raise OSError
     ∧ requests_sent
         (ocr_space client "file" "locked.png" default_options guarded_world).1
       = requests_sent guarded_world ++ []).
Proof.
  split; [|split].
  - destruct (ocr_space_file_call client "scan.png" (File [x89; x50; x4e; x47])
                default_options sample_world ltac:(by_decide) eq_refl eq_refl)
      as [Hr (_ & _ & _ & Hs & _)].
    split; [exact Hr|]. rewrite Hs. reflexivity.
  - exact (proj1 (ocr_space_file_call client "scans" Dir default_options
                    offline_world ltac:(by_decide) eq_refl eq_refl)).
  - destruct (ocr_space_file_call client "locked.png"
                (File [x89; x50; x4e; x47]) default_options guarded_world
                ltac:(by_decide) eq_refl eq_refl)
      as [Hr (_ & _ & _ & Hs & _)].
    split; [exact Hr|exact Hs].
Defined.

(** X3. Whenever [ocr_space] returns, the arguments were valid, exactly
    one request was sent, the service answered it with a good status and
    a JSON object that is not flagged as errored and whose exit code is
    neither 3 nor 4, and that object is what is returned. *)
Theorem ocr_space_returns_the_reply self input_type input_value o w v :
  (ocr_space self input_type input_value o w).2 = Return v →
  valid_arguments input_type o
  ∧ ∃ req resp d,
      requests_sent (ocr_space self input_type input_value o w).1
      = requests_sent w ++ [req]
      ∧ remote w req = Response resp ∧ status_ok resp = true
      ∧ body_json resp = Some (PDict d) ∧ v = PDict d
      ∧ flagged d = false ∧ exit_code_is d 3 = false ∧ exit_code_is d 4 = false.
Proof.
  intros Hret. destruct (decide (valid_arguments input_type o)) as [Hv|Hv].
  2:{ destruct (ocr_space_invalid self input_type input_value o w Hv)
        as (e & _ & He). by rewrite He in Hret. }
  split; [done|]. destruct (valid_kind _ _ Hv) as [->|[->| ->]].
  - destruct (ocr_space_url_run self input_value o w Hv)
      as [Hr (_ & _ & _ & Hs & _)].
    rewrite Hr in Hret.
    destruct (reply_result_return _ _ Hret) as (resp & d & ?).
    by exists (url_request input_value (request_params self o)), resp, d.
  - destruct (file_upload_cases w input_value) as [(data & Hf & He & Hrd)|Hstop].
    + destruct (ocr_space_file_run self input_value data o w Hv Hf He Hrd)
        as [Hr (_ & _ & _ & Hs & _)].
      rewrite Hr in Hret.
      destruct (reply_result_return _ _ Hret) as (resp & d & ?).
      by exists (file_request input_value data (request_params self o)), resp, d.
    + destruct (ocr_space_file_stops self input_value o w Hv Hstop)
        as [[e Hr] _].
      by rewrite Hr in Hret.
  - destruct (String.prefix "data:" input_value) eqn:Hp.
    + destruct (ocr_space_base64_run self input_value o w Hv Hp)
        as [Hr (_ & _ & _ & Hs & _)].
      rewrite Hr in Hret.
      destruct (reply_result_return _ _ Hret) as (resp & d & ?).
      by exists (base64_request input_value (request_params self o)), resp, d.
    + destruct (ocr_space_base64_raises self input_value o w Hp Hv)
        as (_ & _ & Hr).
      by rewrite Hr in Hret.
Qed.

Lemma ocr_space_returns_the_reply_witness :
  valid_arguments "url" default_options
  ∧ ∃ req resp d,
      requests_sent
        (ocr_space client "url" "https://example.org/scan.png" default_options
           sample_world).1
      = requests_sent sample_world ++ [req]
      ∧ remote sample_world req = Response resp ∧ status_ok resp = true
      ∧ body_json resp = Some (PDict d)
      ∧ PDict (<["OCRExitCode" := PInt 1]> ∅) = PDict d
      ∧ flagged d = false ∧ exit_code_is d 3 = false ∧ exit_code_is d 4 = false.
Proof.
  apply (ocr_space_returns_the_reply client "url" "https://example.org/scan.png"
           default_options sample_world).
  reflexivity.
Defined.

Lemma ocr_space_world self input_type input_value o w :
  ∃ reqs l,
    length reqs ≤ 1
    ∧ Forall (λ q, req_url q ∈ [GET_ENDPOINT; POST_ENDPOINT]) reqs
    ∧ files (ocr_space self input_type input_value o w).1 = files w
    ∧ writable (ocr_space self input_type input_value o w).1 = writable w
    ∧ remote (ocr_space self input_type input_value o w).1 = remote w
    ∧ requests_sent (ocr_space self input_type input_value o w).1
      = requests_sent w ++ reqs
    ∧ log (ocr_space self input_type input_value o w).1 = log w ++ l.
Proof.
  destruct (decide (valid_arguments input_type o)) as [Hv|Hv].
  - destruct (ocr_space_valid_call self input_type input_value o w Hv)
      as (reqs & Hn & He & Hf & Hw & Hr & Hs & l & _ & Hl).
    exists reqs. eexists. by repeat split.
  - destruct (ocr_space_invalid self input_type input_value o w Hv)
      as (e & _ & ->).
    exists [], []. simpl. rewrite !app_nil_r. repeat split; try done. lia.
Qed.

(** X4. No call of [ocr_space] writes a file or changes what can be
    written; it sends at most one request, to one of the two endpoints of
    the service, and it only appends to the log. *)
Theorem ocr_space_frame self input_type input_value o w :
  ∃ reqs l,
    length reqs ≤ 1
    ∧ Forall (λ q, req_url q ∈ [GET_ENDPOINT; POST_ENDPOINT]) reqs
    ∧ files (ocr_space self input_type input_value o w).1 = files w
    ∧ writable (ocr_space self input_type input_value o w).1 = writable w
    ∧ remote (ocr_space self input_type input_value o w).1 = remote w
    ∧ requests_sent (ocr_space self input_type input_value o w).1
      = requests_sent w ++ reqs
    ∧ log (ocr_space self input_type input_value o w).1 = log w ++ l.
Proof. apply ocr_space_world. Qed.

(** X5. With valid arguments an exception that leaves [ocr_space] has
    been logged exactly once, as the last record and at the level ERROR,
    as [API request failed] for a [RequestException] and as [OCR
    processing failed] for anything else; a call that returns logs no
    error. *)
Theorem ocr_space_logs_what_it_raises self input_type input_value o w :
  valid_arguments input_type o →
  ∃ l,
    Forall (λ x, x.1 ≠ ERROR) l
    ∧ log (ocr_space self input_type input_value o w).1
      = log w ++ l ++ match (ocr_space self input_type input_value o w).2 with
                      | Raise e => [error_record e]
                      | Return _ => []
                      end.
Proof.
  intros Hv.
  destruct (ocr_space_valid_call self input_type input_value o w Hv)
    as (reqs & _ & _ & _ & _ & _ & _ & l & Hq & Hl).
  by exists l.
Qed.

Lemma ocr_space_logs_what_it_raises_witness :
  ∃ l,
    Forall (λ x, x.1 ≠ ERROR) l
    ∧ log (ocr_space client "file" "missing.jpg" default_options sample_world).1
      = log sample_world ++ l
        ++ match (ocr_space client "file" "missing.jpg" default_options
                    sample_world).2 with
           | Raise e => [error_record e]
           | Return _ => []
           end.
Proof.
  apply (ocr_space_logs_what_it_raises client "file" "missing.jpg"
           default_options sample_world).
  by_decide.
Defined.

(** ** The parameters of a request *)

Lemma request_params_base self o (k : string) :
  k ≠ "filetype" →
  request_params self o !! k
  = (list_to_map
       [("apikey", api_key self);
        ("language", language o);
        ("isOverlayRequired", if is_overlay_required o then "true" else "false");
        ("detectOrientation", if detect_orientation o then "true" else "false");
        ("isCreateSearchablePdf",
          if is_create_searchable_pdf o then "true" else "false");
        ("isSearchablePdfHideTextLayer",
          if is_searchable_pdf_hide_text_layer o then "true" else "false");
        ("scale", if scale o then "true" else "false");
        ("isTable", if is_table o then "true" else "false");
        ("OCREngine", pretty (ocr_engine o))] : gmap string string) !! k.
Proof.
  intros Hk. unfold request_params.
  assert (∀ b : bool, py_lower (str_bool b) = if b then "true" else "false")
    as Hb by (by intros []).
  rewrite !Hb.
  destruct (filetype o) as [ft|]; [|done].
  destruct (py_truthy (PStr ft)); [|done]. by rewrite lookup_insert_ne.
Qed.

(** ** The constructor and the one-shot helpers *)

Lemma init_run environ key_arg w :
  ∃ key,
    __init__ environ key_arg w
    = ({| files := files w; writable := writable w;
          stat_error := stat_error w; readable := readable w;
          write_fails := write_fails w; remote := remote w;
          requests_sent := requests_sent w;
          log := log w ++ (if String.eqb key "helloworld"
                           then [demo_key_warning] else []) |},
       Return {| api_key := key |})
    ∧ key = match key_arg with
            | Some k => if decide (k = "") then
                          getenv environ "OCR_SPACE_API_KEY" "helloworld"
                        else k
            | None => getenv environ "OCR_SPACE_API_KEY" "helloworld"
            end.
Proof.
  eexists. split; [|reflexivity]. unfold __init__, bind, logger, mret.
  assert (∀ k, (if py_truthy (PStr k) then k
                else getenv environ "OCR_SPACE_API_KEY" "helloworld")
               = if decide (k = "") then
                   getenv environ "OCR_SPACE_API_KEY" "helloworld"
                 else k) as Hk.
  { intros k. rewrite truthy_str. by case_bool_decide; case_decide. }
  destruct key_arg as [k|]; [rewrite Hk|];
    match goal with |- context [String.eqb ?x "helloworld"] =>
      destruct (String.eqb x "helloworld") end;
    simpl; rewrite ?app_nil_r; try done; by destruct w.
Qed.

(** X7. The constructor never fails and touches nothing but the log. A
    non-empty key given by the caller is the key of the client whatever
    the environment holds; without one (or with an empty one) the key is
    [OCR_SPACE_API_KEY] from the environment, and [helloworld] when that
    is not set. The demo-key warning is logged exactly when the key of the
    client is [helloworld], also when the caller passed it. *)
Theorem init_resolves_key environ key_arg w :
  ∃ c,
    (__init__ environ key_arg w).2 = Return c
    ∧ (∀ k, key_arg = Some k → k ≠ "" → api_key c = k)
    ∧ (key_arg = None ∨ key_arg = Some "" →
       api_key c = default "helloworld" (environ !! "OCR_SPACE_API_KEY"))
    ∧ files (__init__ environ key_arg w).1 = files w
    ∧ writable (__init__ environ key_arg w).1 = writable w
    ∧ remote (__init__ environ key_arg w).1 = remote w
    ∧ requests_sent (__init__ environ key_arg w).1 = requests_sent w
    ∧ log (__init__ environ key_arg w).1
      = log w ++ (if decide (api_key c = "helloworld")
                  then [demo_key_warning] else []).
Proof.
  destruct (init_run environ key_arg w) as (key & -> & Hkey).
  exists {| api_key := key |}. simpl. split; [done|].
  split. { intros k -> Hk. by rewrite decide_False in Hkey. }
  split. { intros [-> | ->]; by rewrite Hkey. }
  repeat split; try done.
  destruct (String.eqb_spec key "helloworld"); by case_decide.
Qed.

Lemma helper_run environ input_type input_value o w :
  ∃ w0,
    (let* client := __init__ environ None in
     ocr_space client input_type input_value o) w
    = ocr_space {| api_key := getenv environ "OCR_SPACE_API_KEY" "helloworld" |}
        input_type input_value o w0
    ∧ files w0 = files w ∧ writable w0 = writable w ∧ remote w0 = remote w
    ∧ requests_sent w0 = requests_sent w
    ∧ log w0 = log w ++ (if decide (getenv environ "OCR_SPACE_API_KEY"
                                      "helloworld" = "helloworld")
                         then [demo_key_warning] else [])
    ∧ stat_error w0 = stat_error w ∧ readable w0 = readable w
    ∧ write_fails w0 = write_fails w.
Proof.
  destruct (init_run environ None w) as (key & Hrun & ->).
  eexists. unfold bind. rewrite Hrun. split; [done|]. simpl.
  repeat split; try done.
  destruct (String.eqb_spec (getenv environ "OCR_SPACE_API_KEY" "helloworld")
              "helloworld"); by case_decide.
Qed.

(** X8. [ocr_from_url] takes the key from the environment and from nowhere
    else: with valid options it sends the one GET request of the URL
    strategy with [apikey] set to [OCR_SPACE_API_KEY], or to [helloworld]
    when that is not set, and the reply decides the result; with invalid
    options it raises the validation error and sends nothing. *)
Theorem ocr_from_url_uses_environment_key environ url o w :
  let key := default "helloworld" (environ !! "OCR_SPACE_API_KEY") in
  let req := url_request url (request_params {| api_key := key |} o) in
  req_params req !! "apikey" = Some key
  ∧ (valid_arguments "url" o →
     (ocr_from_url environ url o w).2 = reply_result (remote w req)
     ∧ requests_sent (ocr_from_url environ url o w).1 = requests_sent w ++ [req])
  ∧ (¬ valid_arguments "url" o →
     (∃ e, e ∈ validation_errors o
           ∧ (ocr_from_url environ url o w).2 = Raise e)
     ∧ requests_sent (ocr_from_url environ url o w).1 = requests_sent w)
  ∧ files (ocr_from_url environ url o w).1 = files w.
Proof.
  cbv zeta. unfold ocr_from_url.
  destruct (helper_run environ "url" url o w)
    as (w0 & -> & Hf & Hw & Hr & Hs & _).
  unfold getenv. split.
  { simpl. rewrite lookup_insert_ne by done. by rewrite request_params_base. }
  split; [|split].
  - intros Hv.
    destruct (ocr_space_url_run
                {| api_key := default "helloworld"
                                (environ !! "OCR_SPACE_API_KEY") |}
                url o w0 Hv) as [H2 (_ & _ & _ & Hs' & _)].
    by rewrite H2, Hs', Hr, Hs.
  - intros Hv.
    destruct (ocr_space_invalid
                {| api_key := default "helloworld"
                                (environ !! "OCR_SPACE_API_KEY") |}
                "url" url o w0 Hv) as (e & He & ->).
    split; [by exists e|done].
  - destruct (ocr_space_world
                {| api_key := default "helloworld"
                                (environ !! "OCR_SPACE_API_KEY") |}
                "url" url o w0) as (? & ? & _ & _ & Hf' & _).
    by rewrite Hf'.
Qed.

(** X9. [ocr_from_file] and [ocr_from_base64] fail before anything is
    sent: with valid options a path the existence check reports as missing
    raises [FileNotFoundError], a path on which the check itself fails
    raises its [OSError], and a payload that does not begin with [data:]
    raises the [ValueError] of the Base64 strategy; in all three cases no
    request leaves and no file is touched. *)
Theorem helpers_fail_before_sending environ input_value o w :
  (files w !! input_value = None → stat_error w input_value = false →
   valid_arguments "file" o →
     (ocr_from_file environ input_value o w).2
     = Raise (FileNotFoundError [Lit "File not found: "; FmtPath input_value])
     ∧ requests_sent (ocr_from_file environ input_value o w).1 = requests_sent w
     ∧ files (ocr_from_file environ input_value o w).1 = files w)
  ∧ (stat_error w input_value = true → valid_arguments "file" o →
     (ocr_from_file environ input_value o w).2 = Raise OSError
     ∧ requests_sent (ocr_from_file environ input_value o w).1 = requests_sent w
     ∧ files (ocr_from_file environ input_value o w).1 = files w)
  ∧ (String.prefix "data:" input_value = false → valid_arguments "base64" o →
     (ocr_from_base64 environ input_value o w).2 = Raise base64_prefix_error
     ∧ requests_sent (ocr_from_base64 environ input_value o w).1
       = requests_sent w
     ∧ files (ocr_from_base64 environ input_value o w).1 = files w).
Proof.
  split; [|split].
  - intros Hnone He Hv. unfold ocr_from_file.
    destruct (helper_run environ "file" input_value o w)
      as (w0 & -> & Hf & _ & _ & Hs & _ & He0 & _).
    rewrite <- Hf in Hnone. rewrite <- He0 in He.
    destruct (ocr_space_missing_file
                {| api_key := getenv environ "OCR_SPACE_API_KEY" "helloworld" |}
                input_value o w0 Hnone He Hv) as (-> & -> & ->).
    by rewrite Hf in *.
  - intros He Hv. unfold ocr_from_file.
    destruct (helper_run environ "file" input_value o w)
      as (w0 & -> & Hf & _ & _ & Hs & _ & He0 & _).
    rewrite <- He0 in He.
    destruct (ocr_space_stat_error
                {| api_key := getenv environ "OCR_SPACE_API_KEY" "helloworld" |}
                input_value o w0 He Hv) as (-> & -> & ->).
    done.
  - intros Hp Hv. unfold ocr_from_base64.
    destruct (helper_run environ "base64" input_value o w)
      as (w0 & -> & Hf & _ & _ & Hs & _).
    destruct (ocr_space_base64_raises
                {| api_key := getenv environ "OCR_SPACE_API_KEY" "helloworld" |}
                input_value o w0 Hp Hv) as (-> & -> & ->).
    done.
Qed.

Lemma helpers_fail_before_sending_witness :
  ((ocr_from_file ∅ "missing.jpg" default_options sample_world).2
   = Raise (FileNotFoundError [Lit "File not found: "; FmtPath "missing.jpg"])
   ∧ requests_sent (ocr_from_file ∅ "missing.jpg" default_options sample_world).1
     = requests_sent sample_world
   ∧ files (ocr_from_file ∅ "missing.jpg" default_options sample_world).1
     = files sample_world)
  ∧ ((ocr_from_file ∅ long_name default_options guarded_world).2 = Raise OSError
     ∧ requests_sent (ocr_from_file ∅ long_name default_options guarded_world).1
       = requests_sent guarded_world
     ∧ files (ocr_from_file ∅ long_name default_options guarded_world).1
       = files guarded_world).
Proof.
  split.
  - apply (proj1 (helpers_fail_before_sending ∅ "missing.jpg" default_options
                    sample_world)).
    + reflexivity.
    + reflexivity.
    + by_decide.
  - apply (proj1 (proj2 (helpers_fail_before_sending ∅ long_name default_options
                           guarded_world))).
    + by vm_compute.
    + by_decide.
Defined.

(** ** The language table *)

Lemma languages_nodup : NoDup LANGUAGES.*1.
Proof. by_decide. Qed.

Lemma supported_language_iff (code : string) :
  is_Some (get_supported_languages !! code) ↔ code ∈ LANGUAGES.*1.
Proof.
  unfold get_supported_languages. split.
  - intros [name H%elem_of_list_to_map_2].
    apply list_elem_of_fmap. by exists (code, name).
  - intros ((code' & name) & -> & H)%list_elem_of_fmap. exists name.
    apply elem_of_list_to_map_1; [apply languages_nodup|done].
Qed.

(** X10. [get_supported_languages] and the validation of [ocr_space]
    agree. The dictionary has 28 entries; a code it holds passes the
    validation with engine 2, and with engine 1 unless it is [auto]; a
    code it does not hold makes every call raise the unsupported-language
    error, whatever the engine. *)
Theorem supported_languages_are_accepted self input_type input_value o w :
  input_type ∈ ["url"; "file"; "base64"] →
  size get_supported_languages = 28
  ∧ (is_Some (get_supported_languages !! language o) →
       (ocr_engine o = 2%Z → valid_arguments input_type o)
       ∧ (ocr_engine o = 1%Z → language o ≠ "auto" →
          valid_arguments input_type o))
  ∧ (get_supported_languages !! language o = None →
       ocr_space self input_type input_value o w
       = (w, Raise (language_error (language o)))).
Proof.
  intros Hit. split.
  { unfold get_supported_languages.
    rewrite map_size_list_to_map by apply languages_nodup. reflexivity. }
  split.
  - intros Hl%supported_language_iff. split.
    + intros He. repeat split; try done; [by right|]. by intros [_ ?].
    + intros He Ha. repeat split; try done; [by left|]. by intros [? _].
  - intros Hnone. unfold ocr_space.
    rewrite bool_decide_eq_true_2 by done. simpl.
    rewrite bool_decide_eq_false_2; [done|].
    intros Hl%supported_language_iff. rewrite Hnone in Hl. by destruct Hl.
Qed.

Lemma supported_languages_are_accepted_witness :
  size get_supported_languages = 28
  ∧ (is_Some (get_supported_languages !! "eng") →
       (1%Z = 2%Z → valid_arguments "url" default_options)
       ∧ (1%Z = 1%Z → "eng" ≠ "auto" → valid_arguments "url" default_options))
  ∧ (get_supported_languages !! "eng" = None →
       ocr_space client "url" "https://example.org/scan.png" default_options
         sample_world
       = (sample_world, Raise (language_error "eng"))).
Proof.
  apply (supported_languages_are_accepted client "url"
           "https://example.org/scan.png" default_options sample_world).
  by_decide.
Defined.

(** ** Content types *)

(** X11. The two extension tables agree on every image extension: where
    [image_to_base64] knows the extension, [_get_content_type] gives the
    same MIME type. They part only where [image_to_base64] falls back to
    [image/jpeg]: [_get_content_type] says [application/pdf] for [.pdf]
    and [application/octet-stream] for any other extension. *)
Theorem content_type_agrees_with_mime_type (extension : string) :
  (∀ m, mime_types !! extension = Some m → _get_content_type extension = m)
  ∧ (mime_types !! extension = None →
       (extension = ".pdf" ∧ _get_content_type extension = "application/pdf")
       ∨ (extension ≠ ".pdf"
          ∧ _get_content_type extension = "application/octet-stream")).
Proof.
  unfold _get_content_type. split.
  - intros m H. apply elem_of_list_to_map_2 in H.
    rewrite !elem_of_cons, elem_of_nil in H.
    destruct H as [H|[H|[H|[H|[H|[H|[H|[]]]]]]]]; by simplify_eq.
  - intros Hnone.
    destruct (content_types !! extension) as [c|] eqn:Hc; simpl.
    + apply elem_of_list_to_map_2 in Hc.
      rewrite !elem_of_cons, elem_of_nil in Hc.
      destruct Hc as [H|[H|[H|[H|[H|[H|[H|[H|[]]]]]]]]]; simplify_eq;
        try done.
      by left.
    + right. split; [|done]. by intros ->.
Qed.

(** ** [image_to_base64] *)

Lemma image_to_base64_file image_path (data : list Byte.byte) w :
  files w !! image_path = Some (File data) →
  stat_error w image_path = false →
  readable w image_path = true →
  image_to_base64 image_path w
  = (w, Return ("data:" +:+ default "image/jpeg"
                              (mime_types !! py_lower (path_suffix image_path))
                +:+ ";base64," +:+ b64encode data)).
Proof.
  intros Hf He Hrd. unfold image_to_base64, bind, path_exists, open_rb, mret.
  simpl. rewrite He, Hf. rewrite bool_decide_eq_true_2 by eauto. simpl.
  by rewrite Hf, Hrd.
Qed.

(** X13. What [image_to_base64] returns for a readable file is accepted by the
    Base64 strategy: it begins with [data:], so a valid call of
    [ocr_space] with it sends one POST request whose [base64Image] field
    is that very URI, and the reply decides the result. *)
Theorem image_to_base64_feeds_ocr_space self image_path
    (data : list Byte.byte) o w :
  files w !! image_path = Some (File data) →
  stat_error w image_path = false →
  readable w image_path = true →
  valid_arguments "base64" o →
  ∃ uri,
    image_to_base64 image_path w = (w, Return uri)
    ∧ String.prefix "data:" uri = true
    ∧ (ocr_space self "base64" uri o w).2
      = reply_result (remote w (base64_request uri (request_params self o)))
    ∧ requests_sent (ocr_space self "base64" uri o w).1
      = requests_sent w ++ [base64_request uri (request_params self o)]
    ∧ req_data (base64_request uri (request_params self o)) !! "base64Image"
      = Some uri.
Proof.
  intros Hf He Hrd Hv.
  set (rest := default "image/jpeg"
                 (mime_types !! py_lower (path_suffix image_path))
               +:+ ";base64," +:+ b64encode data).
  exists ("data:" +:+ rest). split; [by apply image_to_base64_file|].
  assert (∀ s, String.prefix "data:" ("data:" +:+ s) = true) as Hp
    by (intros []; reflexivity).
  split; [apply Hp|].
  destruct (ocr_space_base64_run self ("data:" +:+ rest) o w Hv (Hp rest))
    as [Hr (_ & _ & _ & Hs & _)].
  split; [exact Hr|]. split; [exact Hs|]. simpl. by rewrite lookup_insert_eq.
Qed.

Lemma image_to_base64_feeds_ocr_space_witness :
  ∃ uri,
    image_to_base64 "scan.png" sample_world = (sample_world, Return uri)
    ∧ String.prefix "data:" uri = true
    ∧ (ocr_space client "base64" uri default_options sample_world).2
      = reply_result
          (remote sample_world
             (base64_request uri (request_params client default_options)))
    ∧ requests_sent (ocr_space client "base64" uri default_options sample_world).1
      = requests_sent sample_world
        ++ [base64_request uri (request_params client default_options)]
    ∧ req_data (base64_request uri (request_params client default_options))
        !! "base64Image" = Some uri.
Proof.
  apply (image_to_base64_feeds_ocr_space client "scan.png" [x89; x50; x4e; x47]
           default_options sample_world).
  - reflexivity.
  - reflexivity.
  - reflexivity.
  - by_decide.
Defined.

Lemma string_length_app (a b : string) :
  String.length (a +:+ b) = String.length a + String.length b.
Proof. induction a as [|c a IH]; simpl; [done|]. by rewrite IH. Qed.

Lemma string_length_of_chars (l : list ascii) :
  String.length (string_of_list_ascii l) = length l.
Proof. induction l as [|c l IH]; simpl; [done|]. by rewrite IH. Qed.

Lemma b64_char_in_alphabet (s : sextet) : b64_char s ∈ b64_alphabet.
Proof.
  destruct s as [[[[[[] []] []] []] []] []]; by_decide.
Qed.

Lemma b64encode_chars_shape (data : list Byte.byte) :
  length (b64encode_chars data) = 4 * ((length data + 2) / 3)
  ∧ Forall (λ c, c ∈ b64_alphabet ∨ c = pad) (b64encode_chars data).
Proof.
  induction data as [|a|a b|a b c rest [IHl IHf]] using bytes_ind3.
  - split; [done|constructor].
  - cbn [b64encode_chars].
    destruct (Byte.to_bits a) as (a0&a1&a2&a3&a4&a5&a6&a7).
    split; [done|].
    repeat apply Forall_cons_2; auto using b64_char_in_alphabet.
  - cbn [b64encode_chars].
    destruct (Byte.to_bits a) as (a0&a1&a2&a3&a4&a5&a6&a7).
    destruct (Byte.to_bits b) as (b0&b1&b2&b3&b4&b5&b6&b7).
    split; [done|].
    repeat apply Forall_cons_2; auto using b64_char_in_alphabet.
  - cbn [b64encode_chars].
    destruct (Byte.to_bits a) as (a0&a1&a2&a3&a4&a5&a6&a7).
    destruct (Byte.to_bits b) as (b0&b1&b2&b3&b4&b5&b6&b7).
    destruct (Byte.to_bits c) as (c0&c1&c2&c3&c4&c5&c6&c7).
    split.
    + cbn [length]. rewrite IHl.
      replace (S (S (S (length rest))) + 2) with (1 * 3 + (length rest + 2))
        by lia.
      rewrite Nat.div_add_l by done. lia.
    + repeat apply Forall_cons_2; auto using b64_char_in_alphabet.
Qed.

(** X14. The payload of the data URI [image_to_base64] returns for a
    readable file of n bytes has 4 * ceil(n / 3) characters, all of them letters, digits,
    [+], [/] or the padding [=], so the whole URI has
    13 + |mime| + 4 * ceil(n / 3) characters. *)
Theorem image_to_base64_size image_path (data : list Byte.byte) w :
  files w !! image_path = Some (File data) →
  stat_error w image_path = false →
  readable w image_path = true →
  ∃ mime payload,
    (image_to_base64 image_path w).2
    = Return ("data:" +:+ mime +:+ ";base64," +:+ payload)
    ∧ String.length payload = 4 * ((length data + 2) / 3)
    ∧ Forall (λ c, c ∈ b64_alphabet ∨ c = pad) (list_ascii_of_string payload)
    ∧ String.length ("data:" +:+ mime +:+ ";base64," +:+ payload)
      = 13 + String.length mime + 4 * ((length data + 2) / 3).
Proof.
  intros Hf He Hrd. rewrite (image_to_base64_file _ _ _ Hf He Hrd).
  eexists _, (b64encode data). split; [done|].
  destruct (b64encode_chars_shape data) as [Hl Hc].
  assert (String.length (b64encode data) = 4 * ((length data + 2) / 3)) as Hlen.
  { unfold b64encode. by rewrite string_length_of_chars. }
  split; [done|]. split.
  - unfold b64encode. by rewrite list_ascii_of_string_of_list_ascii.
  - rewrite !string_length_app, Hlen. simpl. lia.
Qed.

Lemma image_to_base64_size_witness :
  ∃ mime payload,
    (image_to_base64 "scan.png" sample_world).2
    = Return ("data:" +:+ mime +:+ ";base64," +:+ payload)
    ∧ String.length payload = 4 * ((length [x89; x50; x4e; x47] + 2) / 3)
    ∧ Forall (λ c, c ∈ b64_alphabet ∨ c = pad) (list_ascii_of_string payload)
    ∧ String.length ("data:" +:+ mime +:+ ";base64," +:+ payload)
      = 13 + String.length mime + 4 * ((length [x89; x50; x4e; x47] + 2) / 3).
Proof.
  apply (image_to_base64_size "scan.png" [x89; x50; x4e; x47] sample_world);
    reflexivity.
Defined.

(** ** The views on responses of other shapes *)

Lemma extract_text_loop_app l1 l2 texts :
  extract_text_loop (l1 ++ l2) texts
  = (let! texts' := extract_text_loop l1 texts in extract_text_loop l2 texts').
Proof.
  revert texts. induction l1 as [|res l1 IH]; intros texts; [done|].
  cbn [app extract_text_loop].
  destruct (py_get res "FileParseExitCode" PNone) as [code|e]; [|done].
  cbn [rbind]. destruct (py_eq_int code 1); [|apply IH].
  destruct (py_get res "ParsedText" (PStr "")) as [raw|e]; [|done].
  cbn [rbind]. destruct (py_strip_method raw) as [text|e]; [|done].
  cbn [rbind]. destruct (py_truthy (PStr text)); apply IH.
Qed.

Lemma pages_loop_app i l1 l2 words_data :
  pages_loop i (l1 ++ l2) words_data
  = (let! words_data' := pages_loop i l1 words_data in
     pages_loop (i + Z.of_nat (length l1)) l2 words_data').
Proof.
  revert i words_data. induction l1 as [|res l1 IH]; intros i words_data.
  { simpl. by rewrite Z.add_0_r. }
  cbn [app pages_loop length].
  replace (i + Z.of_nat (S (length l1)))%Z
    with (i + 1 + Z.of_nat (length l1))%Z by lia.
  destruct (py_get res "FileParseExitCode" PNone) as [code|e]; [|done].
  cbn [rbind]. destruct (py_eq_int code 1); [|apply IH].
  destruct (py_get res "TextOverlay" (PDict ∅)) as [ov|e]; [|done].
  cbn [rbind]. destruct (py_get ov "Lines" (PList [])) as [lv|e]; [|done].
  cbn [rbind]. destruct (py_iter lv) as [lines|e]; [|done].
  cbn [rbind].
  destruct (lines_loop i 0 lines words_data) as [wd|e]; [|done].
  cbn [rbind]. apply IH.
Qed.

(** X15. With no [ParsedResults] in the response both views are empty:
    [extract_text] returns the empty string and
    [extract_words_with_positions] the empty list. With a [ParsedResults]
    that is [None], a boolean or a number both raise [TypeError]. *)
Theorem views_without_pages (d : gmap string pyval) :
  (d !! "ParsedResults" = None →
     extract_text d = Return ""
     ∧ extract_words_with_positions d = Return [])
  ∧ (∀ v, d !! "ParsedResults" = Some v → not_iterable v = true →
       extract_text d = Raise TypeError
       ∧ extract_words_with_positions d = Raise TypeError).
Proof.
  unfold extract_text, extract_words_with_positions. split.
  - by intros ->.
  - intros v -> Hv. by destruct v.
Qed.

Lemma views_without_pages_witness :
  (extract_text ∅ = Return "" ∧ extract_words_with_positions ∅ = Return [])
  ∧ (extract_text (<["ParsedResults" := PNone]> ∅) = Raise TypeError
     ∧ extract_words_with_positions (<["ParsedResults" := PNone]> ∅)
       = Raise TypeError).
Proof.
  split.
  - apply (proj1 (views_without_pages ∅)). reflexivity.
  - apply (proj2 (views_without_pages (<["ParsedResults" := PNone]> ∅)) PNone);
      reflexivity.
Defined.

(** X16. [extract_text] raises [AttributeError] at the first page that is
    not an object, and at the first successful page whose [ParsedText] is
    present but not a string (a JSON null, say): the default text only
    covers a missing key. The pages before it must be well formed. *)
Theorem extract_text_malformed_page (d : gmap string pyval)
    (pages : list (gmap string pyval)) (v : pyval) (rest : list pyval) :
  d !! "ParsedResults" = Some (PList ((PDict <$> pages) ++ v :: rest)) →
  text_pages pages →
  as_dict v = None
  ∨ (∃ p, v = PDict p ∧ page_ok p = true ∧ page_text p = None) →
  extract_text d = Raise AttributeError.
Proof.
  intros Hd Ht Hv. unfold extract_text. rewrite Hd. cbn [default from_option id py_iter rbind].
  rewrite extract_text_loop_app, (extract_text_loop_segments _ _ Ht).
  cbn [rbind extract_text_loop].
  destruct Hv as [Hv|(p & -> & Hok & Htext)].
  - by destruct v.
  - cbn [py_get rbind]. fold (page_ok p). rewrite Hok.
    unfold page_text in Htext.
    by destruct (p !! "ParsedText") as [[]|].
Qed.

Lemma extract_text_malformed_page_witness :
  extract_text
    (<["ParsedResults" :=
         PList [PDict (page 1 "Hello");
                PDict (<["FileParseExitCode" := PInt 1]>
                       (<["ParsedText" := PNone]> ∅))]]> ∅)
  = Raise AttributeError.
Proof.
  apply (extract_text_malformed_page _ [page 1 "Hello"]
           (PDict (<["FileParseExitCode" := PInt 1]>
                   (<["ParsedText" := PNone]> ∅))) []).
  - reflexivity.
  - apply Forall_cons_2; [intros _; by eexists|]. apply Forall_nil_2.
  - right. eexists. split; [reflexivity|]. split; reflexivity.
Defined.

(** X17. What a failed page holds is never read. Taking a failed page out
    of [ParsedResults] does not change what [extract_text] returns or
    raises, and putting any other failed page in its place does not
    change what [extract_words_with_positions] returns or raises. *)
Theorem failed_pages_are_not_read (d : gmap string pyval)
    (l1 l2 : list pyval) (p : gmap string pyval) :
  d !! "ParsedResults" = Some (PList (l1 ++ PDict p :: l2)) →
  page_ok p = false →
  extract_text d = extract_text (<["ParsedResults" := PList (l1 ++ l2)]> d)
  ∧ ∀ p', page_ok p' = false →
      extract_words_with_positions d
      = extract_words_with_positions
          (<["ParsedResults" := PList (l1 ++ PDict p' :: l2)]> d).
Proof.
  intros Hd Hfail. unfold extract_text, extract_words_with_positions.
  rewrite Hd. split.
  - rewrite lookup_insert_eq. cbn [default from_option id py_iter rbind].
    rewrite !extract_text_loop_app.
    destruct (extract_text_loop l1 []) as [texts|e]; [|done].
    cbn [rbind extract_text_loop py_get]. fold (page_ok p). by rewrite Hfail.
  - intros p' Hfail'. rewrite lookup_insert_eq. cbn [default from_option id py_iter rbind].
    rewrite !pages_loop_app.
    destruct (pages_loop 0 l1 []) as [wd|e]; [|done].
    cbn [rbind pages_loop py_get]. fold (page_ok p) (page_ok p').
    by rewrite Hfail, Hfail'.
Qed.

Lemma failed_pages_are_not_read_witness :
  extract_text (response_of hello_world_pages)
  = extract_text
      (<["ParsedResults" := PList ([PDict (page 1 "Hello")]
                                   ++ [PDict (page 1 "World")])]>
         (response_of hello_world_pages))
  ∧ ∀ p', page_ok p' = false →
      extract_words_with_positions (response_of hello_world_pages)
      = extract_words_with_positions
          (<["ParsedResults" := PList ([PDict (page 1 "Hello")]
                                       ++ PDict p' :: [PDict (page 1 "World")])]>
             (response_of hello_world_pages)).
Proof.
  apply (failed_pages_are_not_read (response_of hello_world_pages)
           [PDict (page 1 "Hello")] [PDict (page 1 "World")]
           (page 3 "unreadable")); reflexivity.
Defined.

(** ** The order and the number of the word records *)

Lemma sorted_imap {A B} (R : relation B) (g : nat → A → B) (l : list A) :
  (∀ i i' x x', i < i' → R (g i x) (g i' x')) →
  StronglySorted R (imap g l).
Proof.
  revert g. induction l as [|x l IH]; intros g Hg; [constructor|].
  rewrite imap_cons. apply StronglySorted_cons. split.
  - apply list.Forall_forall. intros y (i & x' & -> & _)%elem_of_lookup_imap.
    apply Hg. lia.
  - apply IH. intros i i' y y' Hlt. apply Hg. lia.
Qed.

Lemma sorted_concat_imap {A B} (R : relation B) (f : nat → A → list B)
    (l : list A) :
  (∀ i x, StronglySorted R (f i x)) →
  (∀ i i' x x' y y', i < i' → y ∈ f i x → y' ∈ f i' x' → R y y') →
  StronglySorted R (concat (imap f l)).
Proof.
  revert f. induction l as [|x l IH]; intros f Hs Hf; [constructor|].
  rewrite imap_cons. cbn [concat]. apply StronglySorted_app_2.
  - intros y y' Hy (i & x' & _ & Hy')%elem_of_concat_imap.
    apply (Hf 0 (S i) x x'); [lia|done..].
  - apply Hs.
  - apply IH; [intros i x'; apply Hs|].
    intros i i' z z' y y' Hlt. apply Hf. lia.
Qed.

Lemma length_concat_imap {A B} (f : nat → A → list B) (g : A → nat)
    (l : list A) :
  (∀ i x, length (f i x) = g x) →
  length (concat (imap f l)) = sum_list (g <$> l).
Proof.
  revert f. induction l as [|x l IH]; intros f Hf; [done|].
  rewrite imap_cons. cbn [concat]. rewrite length_app, Hf, fmap_cons.
  cbn [sum_list sum_list_with]. f_equal. apply IH. intros i y. apply Hf.
Qed.

Lemma word_record_position i j k w :
  position (word_record i j k w)
  = (Z.of_nat i + 1, Z.of_nat j + 1, Z.of_nat k + 1)%Z.
Proof.
  unfold position, int_field.
  by rewrite word_record_page, word_record_line, word_record_word_index.
Qed.

Lemma elem_of_line_records r i j ws :
  r ∈ line_records i j ws → ∃ k w, r = word_record i j k w.
Proof.
  unfold line_records. intros (k & w & -> & _)%elem_of_lookup_imap. eauto.
Qed.

Lemma elem_of_page_records r i ls :
  r ∈ page_records i ls → ∃ j k w, r = word_record i j k w.
Proof.
  unfold page_records. intros (j & ws & _ & Hr)%elem_of_concat_imap.
  apply elem_of_line_records in Hr as (k & w & ->). eauto.
Qed.

Lemma overlay_records_sorted lss :
  StronglySorted (λ r1 r2, before (position r1) (position r2))
    (overlay_records lss).
Proof.
  unfold overlay_records. apply sorted_concat_imap.
  - intros i ls. unfold page_records. apply sorted_concat_imap.
    + intros j ws. unfold line_records. apply sorted_imap.
      intros k k' w w' Hlt. rewrite !word_record_position. simpl. lia.
    + intros j j' ws ws' r r' Hlt (k & w & ->)%elem_of_line_records
        (k' & w' & ->)%elem_of_line_records.
      rewrite !word_record_position. simpl. lia.
  - intros i i' ls ls' r r' Hlt (j & k & w & ->)%elem_of_page_records
      (j' & k' & w' & ->)%elem_of_page_records.
    rewrite !word_record_position. simpl. lia.
Qed.

Lemma overlay_records_length lss :
  length (overlay_records lss) = word_count lss.
Proof.
  unfold overlay_records, word_count. apply length_concat_imap.
  intros i ls. unfold page_records. apply length_concat_imap.
  intros j ws. unfold line_records. apply length_imap.
Qed.

(** X18. On a well-formed response the records of
    [extract_words_with_positions] come in reading order: sorted strictly
    by page, then line, then word number, so no two records carry the same
    three numbers; and there are as many records as there are words on the
    successful pages. *)
Theorem extract_words_in_reading_order (d : gmap string pyval) pages lss :
  parsed_pages d = Some pages →
  mapM page_overlay pages = Some lss →
  ∃ rs,
    extract_words_with_positions d = Return rs
    ∧ length rs = word_count lss
    ∧ StronglySorted (λ r1 r2, before (position r1) (position r2)) rs.
Proof.
  intros Hp Ho. exists (overlay_records lss).
  split; [by apply extract_words_records with pages|].
  split; [apply overlay_records_length|apply overlay_records_sorted].
Qed.

Lemma extract_words_in_reading_order_witness :
  ∃ rs,
    extract_words_with_positions
      (response_of [overlay_page [two_words; two_words]; page 3 "unreadable";
                    overlay_page [two_words]]) = Return rs
    ∧ length rs = word_count [[two_words; two_words]; []; [two_words]]
    ∧ StronglySorted (λ r1 r2, before (position r1) (position r2)) rs.
Proof.
  apply (extract_words_in_reading_order
           (response_of [overlay_page [two_words; two_words];
                         page 3 "unreadable"; overlay_page [two_words]])
           [overlay_page [two_words; two_words]; page 3 "unreadable";
            overlay_page [two_words]]); reflexivity.
Defined.

(** ** What [download_searchable_pdf] leaves alone *)

(** X19. [download_searchable_pdf] touches no file but the output path and
    changes neither what can be written nor the service. It sends at most
    one request, the GET of the URL in the response. A URL that is not a
    string gives [False] with nothing sent, and an output path that cannot
    be opened gives [False]. *)
Theorem download_touches_only_output (d : gmap string pyval) out w :
  writable (download_searchable_pdf d out w).1 = writable w
  ∧ remote (download_searchable_pdf d out w).1 = remote w
  ∧ (∀ p, p ≠ out →
       files (download_searchable_pdf d out w).1 !! p = files w !! p)
  ∧ (requests_sent (download_searchable_pdf d out w).1 = requests_sent w
     ∨ ∃ u, d !! "SearchablePDFURL" = Some (PStr u) ∧ u ≠ ""
            ∧ requests_sent (download_searchable_pdf d out w).1
              = requests_sent w ++ [pdf_request u])
  ∧ (∀ v, d !! "SearchablePDFURL" = Some v → (∀ u, v ≠ PStr u) →
       (download_searchable_pdf d out w).2 = Return false
       ∧ requests_sent (download_searchable_pdf d out w).1 = requests_sent w)
  ∧ (writable w out = false →
       (download_searchable_pdf d out w).2 = Return false).
Proof.
  run_download.
  destruct (d !! "SearchablePDFURL") as [[| | | |u| |]|] eqn:Hd; simpl;
    repeat case_match; simplify_eq/=;
    repeat split; try done; try (by left);
    try (by intros ? [= <-] H; destruct (H _ eq_refl));
    try (by intros ? [= <-] H);
    try (by intros p Hp; rewrite !lookup_insert_ne);
    try congruence;
    try (right; exists u; repeat split; try done; by intros ->).
Qed.

(** ** The segments and the text of the pages *)

Lemma lstrip_chars_split l :
  ∃ pre, l = pre ++ lstrip_chars l ∧ Forall (λ c, is_py_space c = true) pre.
Proof.
  induction l as [|a l (pre & IH & Hpre)]; simpl.
  - by exists [].
  - destruct (is_py_space a) eqn:Ha.
    + exists (a :: pre). simpl. split; [by f_equal|]. by apply Forall_cons_2.
    + by exists [].
Qed.

Lemma rstrip_chars_split l :
  ∃ post, l = rstrip_chars l ++ post ∧ Forall (λ c, is_py_space c = true) post.
Proof.
  unfold rstrip_chars. destruct (lstrip_chars_split (rev l)) as (pre & H & Hpre).
  exists (rev pre). split.
  - rewrite <- rev_app_distr, <- H. by rewrite rev_involutive.
  - by apply Forall_rev.
Qed.

Lemma py_strip_split s :
  ∃ pre post, s = pre +:+ py_strip s +:+ post ∧ all_space pre ∧ all_space post.
Proof.
  unfold py_strip, all_space.
  destruct (lstrip_chars_split (list_ascii_of_string s)) as (pre & Hs & Hpre).
  destruct (rstrip_chars_split (lstrip_chars (list_ascii_of_string s)))
    as (post & Hl & Hpost).
  exists (string_of_list_ascii pre), (string_of_list_ascii post).
  rewrite !list_ascii_of_string_of_list_ascii. split; [|done].
  apply chars_inj. rewrite !chars_app, !list_ascii_of_string_of_list_ascii.
  by rewrite <- Hl.
Qed.

(** X20. [extract_text] changes no text inside a page: every segment it
    joins is the [ParsedText] of a successful page of the response with
    nothing but whitespace taken off at the two ends. *)
Theorem extract_text_keeps_inner_text (d : gmap string pyval) pages :
  parsed_pages d = Some pages →
  text_pages pages →
  ∃ segs,
    extract_text d = Return (String.concat blank_line segs)
    ∧ Forall (λ t, ∃ p pre post,
                p ∈ pages ∧ page_ok p = true
                ∧ page_text p = Some (pre +:+ t +:+ post)
                ∧ all_space pre ∧ all_space post) segs.
Proof.
  intros Hp Ht. exists (text_segments pages).
  split; [by apply extract_text_segments|].
  unfold text_segments. apply list.Forall_forall. intros t Hin.
  apply list_elem_of_filter in Hin as [_ Hin].
  apply list_elem_of_fmap in Hin as (p & -> & Hin).
  apply list_elem_of_filter in Hin as [Hok Hin].
  unfold text_pages in Ht. rewrite list.Forall_forall in Ht.
  destruct (Ht p Hin Hok) as [s Hs].
  unfold page_trimmed. rewrite Hs. simpl.
  destruct (py_strip_split s) as (pre & post & Hsplit & Hpre & Hpost).
  exists p, pre, post. by rewrite <- Hsplit.
Qed.

Lemma extract_text_keeps_inner_text_witness :
  ∃ segs,
    extract_text (response_of blank_between_pages)
    = Return (String.concat blank_line segs)
    ∧ Forall (λ t, ∃ p pre post,
                p ∈ blank_between_pages ∧ page_ok p = true
                ∧ page_text p = Some (pre +:+ t +:+ post)
                ∧ all_space pre ∧ all_space post) segs.
Proof.
  apply (extract_text_keeps_inner_text (response_of blank_between_pages)
           blank_between_pages).
  - reflexivity.
  - repeat (apply Forall_cons_2; [intros _; by eexists|]). apply Forall_nil_2.
Defined.

(** X21. [extract_words_with_positions] raises [AttributeError] at the
    first successful page whose [TextOverlay] is present but not an object
    (a JSON null, say): the default overlay only covers a missing key. The
    pages before it must be well formed. *)
Theorem extract_words_malformed_overlay (d : gmap string pyval)
    (pages : list (gmap string pyval)) lss (p : gmap string pyval)
    (v : pyval) (rest : list pyval) :
  d !! "ParsedResults" = Some (PList ((PDict <$> pages) ++ PDict p :: rest)) →
  mapM page_overlay pages = Some lss →
  page_ok p = true →
  p !! "TextOverlay" = Some v →
  as_dict v = None →
  extract_words_with_positions d = Raise AttributeError.
Proof.
  intros Hd Ho Hok Hov Hv. unfold extract_words_with_positions.
  rewrite Hd. cbn [default from_option id py_iter rbind].
  rewrite pages_loop_app. change 0%Z with (Z.of_nat 0).
  rewrite (pages_loop_records _ _ _ _ Ho).
  cbn [rbind pages_loop py_get]. fold (page_ok p). rewrite Hok, Hov.
  by destruct v.
Qed.

Lemma extract_words_malformed_overlay_witness :
  extract_words_with_positions
    (<["ParsedResults" :=
         PList [PDict (overlay_page [two_words]);
                PDict (<["TextOverlay" := PNone]> (page 1 "Hello"))]]> ∅)
  = Raise AttributeError.
Proof.
  apply (extract_words_malformed_overlay _ [overlay_page [two_words]]
           [[two_words]] (<["TextOverlay" := PNone]> (page 1 "Hello")) PNone []);
    reflexivity.
Defined.
